(** * server.js: an OpenAI-compatible proxy in front of the NVIDIA NIM API

    A shallow embedding of [src/server.js] and the properties of its
    chat-completion handler: model resolution, request validation, the
    non-streaming response envelope, the line re-framing of the event stream
    and the error envelope.

    Layout:
    - [JS]      the JavaScript values and operators the handler uses
                (truthiness, [||], [?.], [typeof], property lookup along the
                prototype chain);
    - [Text]    the string methods it calls ([split], [pop], [startsWith],
                [includes], [slice]);
    - [Buffer]  [Buffer.prototype.toString], the UTF-8 decoder;
    - [JSON]    [JSON.parse], and [JSON.stringify] as the JSON value it
                prints;
    - [Server]  the handler of [POST /v1/chat/completions], as a computation
                over the response object, the console, the clock and the
                upstream, followed by the stream events its listeners get;
    - the data model of the specification, written over JSON values, and
      the reading of a finished run;
    - the proofs: the parser, values and texts, one line, lines across
      chunks, decoding, the handler step by step, the properties C1 to C10,
      and further properties of the handler and of the model list, X1 to
      X17.

    Conventions.  A [Buffer] is the [string] of its bytes, and a JavaScript
    string is the [string] of its UTF-8 bytes: [chunk.toString()] is the
    UTF-8 decoder, which puts U+FFFD in place of every ill-formed sequence,
    and what is written to the response is the text as it stands.  A number
    is the exact decimal value of its literal, [mant * 10 ^ expo].  Binary64
    is not modelled: a literal beyond its range, which the engine holds as
    [Infinity] or as [0], and the rounding of the digits of a number are
    outside the model, and what is stated about the value of a number (C5)
    is stated for the finite range of binary64.  What [res.write] and
    [res.json] send is kept as the JSON value that is printed, not as its
    text.  The request body is what [express.json()] hands to the
    handler. *)

From Stdlib Require Import String Ascii List ZArith Bool Lia DecimalString.
Import ListNotations.

Local Open Scope string_scope.
Local Open Scope list_scope.
Local Set Warnings "-register-all".

(* ===================================================================== *)
(** ** JavaScript values *)
(* ===================================================================== *)

Module JS.

(** A number literal [mant * 10 ^ expo]. *)
Record num : Type := Num { mant : Z; expo : Z }.

Definition int (z : Z) : num := Num z 0.

(** Runtime values.  [VFun name] is the built-in function found under
    [name] on [Object.prototype]; [VProto] is a built-in prototype object
    (what the accessor [__proto__] returns). *)
Inductive value : Type :=
| VUndefined
| VNull
| VBool (b : bool)
| VNum (n : num)
| VStr (s : string)
| VArr (xs : list value)
| VObj (props : list (string * value))
| VFun (name : string)
| VProto.

(** [ToBoolean]. *)
Definition truthy (v : value) : bool :=
  match v with
  | VUndefined | VNull => false
  | VBool b => b
  | VNum n => negb (mant n =? 0)%Z
  | VStr s => negb (s =? "")
  | VArr _ | VObj _ | VFun _ | VProto => true
  end.

(** [a || b] *)
Definition js_or (a b : value) : value := if truthy a then a else b.

(** [typeof v] *)
Definition typeof (v : value) : string :=
  match v with
  | VUndefined => "undefined"
  | VNull | VArr _ | VObj _ | VProto => "object"
  | VBool _ => "boolean"
  | VNum _ => "number"
  | VStr _ => "string"
  | VFun _ => "function"
  end.

(** [Array.isArray(v)] *)
Definition isArray (v : value) : bool :=
  match v with VArr _ => true | _ => false end.

Definition nullish (v : value) : bool :=
  match v with VUndefined | VNull => true | _ => false end.

(** Own properties of an object literal or of a parsed object, in
    insertion order. *)
Fixpoint assoc {A : Type} (k : string) (l : list (string * A)) : option A :=
  match l with
  | [] => None
  | (k', v) :: r => if k' =? k then Some v else assoc k r
  end.

(** [delete o[k]] *)
Fixpoint remove {A : Type} (k : string) (l : list (string * A))
  : list (string * A) :=
  match l with
  | [] => []
  | (k', v) :: r => if k' =? k then remove k r else (k', v) :: remove k r
  end.

(** [o[k] = v] on own properties: overwrite in place, or append. *)
Fixpoint set {A : Type} (k : string) (v : A) (l : list (string * A))
  : list (string * A) :=
  match l with
  | [] => [(k, v)]
  | (k', v') :: r => if k' =? k then (k, v) :: r else (k', v') :: set k v r
  end.

(** The property names every object inherits from [Object.prototype]. *)
Definition Object_prototype_names : list string :=
  [ "constructor"; "hasOwnProperty"; "isPrototypeOf";
    "propertyIsEnumerable"; "toLocaleString"; "toString"; "valueOf";
    "__defineGetter__"; "__defineSetter__"; "__lookupGetter__";
    "__lookupSetter__" ].

Definition inherited (k : string) : value :=
  if k =? "__proto__" then VProto
  else if existsb (String.eqb k) Object_prototype_names then VFun k
  else VUndefined.

(** An array index written as a property key: ["0"], ["1"], ["12"], ...;
    ["01"] is none. *)
Definition index_of_key (k : string) : option nat :=
  match NilEmpty.uint_of_string k with
  | Some d =>
      let i := Nat.of_uint d in
      if NilZero.string_of_uint (Nat.to_uint i) =? k then Some i else None
  | None => None
  end.

(** Own data property [v[k]] of a non-nullish value, if it has one. *)
Definition own (v : value) (k : string) : option value :=
  match v with
  | VObj props => assoc k props
  | VArr xs =>
      if k =? "length" then Some (VNum (int (Z.of_nat (List.length xs))))
      else match index_of_key k with
           | Some i => nth_error xs i
           | None => None
           end
  | VStr s =>
      if k =? "length" then Some (VNum (int (Z.of_nat (String.length s))))
      else match index_of_key k with
           | Some i => match String.get i s with
                       | Some c => Some (VStr (String c ""))
                       | None => None
                       end
           | None => None
           end
  | _ => None
  end.

(** [v[k]] for a non-nullish [v]: the own property, else the inherited
    one.  Only [Object.prototype] is followed; the methods of
    [Array.prototype], [String.prototype] and the like are not listed
    (server.js reads no such name from a value it does not own). *)
Definition lookup (v : value) (k : string) : value :=
  match own v k with
  | Some x => x
  | None => inherited k
  end.

(** The outcome of an expression that may throw. *)
Inductive outcome (A : Type) : Type :=
| Ok (a : A)
| Throw (e : value).
Arguments Ok {A} a.
Arguments Throw {A} e.

(** A thrown [Error]: an object with its [message]. *)
Definition error_object (msg : string) : value :=
  VObj [("message", VStr msg)].

Definition describe (v : value) : string :=
  match v with VNull => "null" | _ => "undefined" end.

(** [v.k]: a [TypeError] on [null] and [undefined]. *)
Definition get (v : value) (k : string) : outcome value :=
  if nullish v
  then Throw (error_object ("Cannot read properties of " ++ describe v
                              ++ " (reading '" ++ k ++ "')"))
  else Ok (lookup v k).

(** [v?.k] and [v?.[i]] *)
Definition opt (v : value) (k : string) : value :=
  if nullish v then VUndefined else lookup v k.

End JS.

Import JS.

(* ===================================================================== *)
(** ** String methods *)
(* ===================================================================== *)

Module Text.

Definition newline : ascii := "010"%char.

(** [s.split(sep)] for a one-character separator: never the empty array. *)
Fixpoint split (sep : ascii) (s : string) : list string :=
  match s with
  | "" => [""]
  | String c r =>
      if (c =? sep)%char then "" :: split sep r
      else match split sep r with
           | h :: t => String c h :: t
           | [] => [String c ""]
           end
  end.

(** [lines.pop()]: the last element, removed; [undefined] on the empty
    array. *)
Fixpoint pop (l : list string) : option string * list string :=
  match l with
  | [] => (None, [])
  | [x] => (Some x, [])
  | x :: r => let (last, front) := pop r in (last, x :: front)
  end.

(** [s.startsWith(p)] *)
Definition startsWith (s p : string) : bool := String.prefix p s.

(** [s.includes(p)] *)
Fixpoint includes (s p : string) : bool :=
  String.prefix p s ||
  match s with
  | "" => false
  | String _ r => includes r p
  end.

(** [s.slice(n)] for [n >= 0] *)
Fixpoint slice (n : nat) (s : string) : string :=
  match n, s with
  | O, _ => s
  | S n', String _ r => slice n' r
  | S _, "" => ""
  end.

(** A text with every ['] read as a double quote, character 34. *)
Fixpoint dq (s : string) : string :=
  match s with
  | "" => ""
  | String c r => String (if (c =? "'")%char then "034"%char else c) (dq r)
  end.

(** The decimal text of an integer, as a template literal prints it. *)
Definition of_Z (z : Z) : string := NilZero.string_of_int (Z.to_int z).

End Text.

Import Text.

(* ===================================================================== *)
(** ** Buffers *)
(* ===================================================================== *)

Module Buffer.

(** U+FFFD, the replacement character, in UTF-8: EF BF BD. *)
Definition replacement : string :=
  String "239" (String "191" (String "189" "")).

(** A multi-byte sequence that is being read: its bytes so far, how many
    continuation bytes are still needed, and the bounds of the next one. *)
Record sequence : Type := Sequence {
  read : string;
  needed : nat;
  lower : nat;
  upper : nat
}.

(** No sequence is open. *)
Definition idle : sequence := Sequence "" 0 128 191.

(** A lead byte: how many continuation bytes it asks for, and the bounds
    of the first of them (which shut out overlong forms, surrogates and
    code points above U+10FFFF).  C0, C1 and F5 to FF are no lead bytes. *)
Definition lead (n : nat) : option (nat * nat * nat) :=
  (if (194 <=? n) && (n <=? 223) then Some (1, 128, 191)
   else if n =? 224 then Some (2, 160, 191)
   else if n =? 237 then Some (2, 128, 159)
   else if (225 <=? n) && (n <=? 239) then Some (2, 128, 191)
   else if n =? 240 then Some (3, 144, 191)
   else if n =? 244 then Some (3, 128, 143)
   else if (241 <=? n) && (n <=? 243) then Some (3, 128, 191)
   else None)%nat.

(** A byte met while no sequence is open: an ASCII byte is a character, a
    lead byte opens a sequence, any other byte is ill-formed. *)
Definition start (c : ascii) : string * sequence :=
  let n := nat_of_ascii c in
  if (n <? 128)%nat then (String c "", idle)
  else match lead n with
       | Some (k, lo, hi) => ("", Sequence (String c "") k lo hi)
       | None => (replacement, idle)
       end.

(** One byte through the decoder: what it adds to the text, and the
    sequence open afterwards.  A byte that cannot continue the open
    sequence ends it as ill-formed and is then read afresh. *)
Definition step (st : sequence) (c : ascii) : string * sequence :=
  match needed st with
  | O => start c
  | S k =>
      let n := nat_of_ascii c in
      if ((lower st <=? n) && (n <=? upper st))%nat then
        match k with
        | O => ((read st ++ String c "")%string, idle)
        | S _ => ("", Sequence (read st ++ String c "") k 128 191)
        end
      else let (out, st') := start c in ((replacement ++ out)%string, st')
  end.

(** The text of the bytes [s]; a sequence still open at the end of the
    bytes is ill-formed. *)
Fixpoint decode (st : sequence) (s : string) : string :=
  match s with
  | "" => match needed st with
          | O => ""
          | S _ => replacement
          end
  | String c r => let (out, st') := step st c in (out ++ decode st' r)%string
  end.

(** The sequence open after the bytes [s]. *)
Fixpoint after (st : sequence) (s : string) : sequence :=
  match s with
  | "" => st
  | String c r => after (snd (step st c)) r
  end.

(** [chunk.toString()]: the bytes of the chunk decoded as UTF-8, each
    ill-formed sequence replaced by U+FFFD.  Every chunk is decoded on its
    own, from the idle state. *)
Definition toString (chunk : string) : string := decode idle chunk.

End Buffer.

(* ===================================================================== *)
(** ** JSON *)
(* ===================================================================== *)

Module JSON.

(** A JSON text: what [JSON.parse] reads and [JSON.stringify] prints. *)
Inductive json : Type :=
| JNull
| JBool (b : bool)
| JNum (n : num)
| JStr (s : string)
| JArr (xs : list json)
| JObj (props : list (string * json)).

(** The runtime value [JSON.parse] builds for a text. *)
Fixpoint of_json (j : json) : value :=
  match j with
  | JNull => VNull
  | JBool b => VBool b
  | JNum n => VNum n
  | JStr s => VStr s
  | JArr xs => VArr (map of_json xs)
  | JObj props => VObj (map (fun kv => (fst kv, of_json (snd kv))) props)
  end.

(** [JSON.stringify(v)], as the JSON text it prints: [None] is the result
    [undefined].  A property whose value is [undefined] or a function is
    left out; in an array such an element prints as [null]. *)
Fixpoint stringify (v : value) : option json :=
  match v with
  | VUndefined | VFun _ => None
  | VNull => Some JNull
  | VBool b => Some (JBool b)
  | VNum n => Some (JNum n)
  | VStr s => Some (JStr s)
  | VArr xs =>
      Some (JArr (map (fun x => match stringify x with
                                | Some j => j
                                | None => JNull
                                end) xs))
  | VObj props =>
      Some (JObj ((fix fields (l : list (string * value)) :=
                     match l with
                     | [] => []
                     | (k, x) :: r =>
                         match stringify x with
                         | Some j => (k, j) :: fields r
                         | None => fields r
                         end
                     end) props))
  | VProto => Some (JObj [])
  end.

(** *** The parser *)

Inductive parsed (A : Type) : Type :=
| Parsed (a : A) (rest : string)
| SyntaxError
| OutOfFuel.
Arguments Parsed {A} a rest.
Arguments SyntaxError {A}.
Arguments OutOfFuel {A}.

Definition pmap {A B : Type} (f : A -> B) (p : parsed A) : parsed B :=
  match p with
  | Parsed a r => Parsed (f a) r
  | SyntaxError => SyntaxError
  | OutOfFuel => OutOfFuel
  end.

Definition is_ws (c : ascii) : bool :=
  ((c =? " ") || (c =? "009") || (c =? "010") || (c =? "013"))%char.

Fixpoint skip_ws (s : string) : string :=
  match s with
  | String c r => if is_ws c then skip_ws r else s
  | "" => ""
  end.

Definition is_digit (c : ascii) : bool :=
  let n := nat_of_ascii c in (48 <=? n)%nat && (n <=? 57)%nat.

Definition digit_val (c : ascii) : Z := Z.of_nat (nat_of_ascii c - 48).

(** A maximal run of digits: its value on top of [acc], how many there
    were, and what follows. *)
Fixpoint digits (acc : Z) (count : nat) (s : string) : Z * nat * string :=
  match s with
  | String c r =>
      if is_digit c then digits (acc * 10 + digit_val c)%Z (S count) r
      else (acc, count, s)
  | "" => (acc, count, s)
  end.

(** [s] without its first character, when that is [c]. *)
Definition expect (c : ascii) (s : string) : option string :=
  match s with
  | String c' r => if (c' =? c)%char then Some r else None
  | "" => None
  end.

(** int: [0] or a digit run that does not start with [0]. *)
Definition parse_int (s : string) : parsed Z :=
  match expect "0" s with
  | Some r => Parsed 0%Z r
  | None =>
      let '(i, count, r) := digits 0 0 s in
      match count with
      | O => SyntaxError
      | _ => Parsed i r
      end
  end.

(** frac: nothing, or [.] and at least one digit; the digits read are
    appended to the mantissa. *)
Definition parse_frac (i : Z) (s : string) : parsed (Z * Z) :=
  match expect "." s with
  | Some r =>
      let '(m, count, r') := digits i 0 r in
      match count with
      | O => SyntaxError
      | _ => Parsed (m, (- Z.of_nat count)%Z) r'
      end
  | None => Parsed (i, 0%Z) s
  end.

(** exp: nothing, or [e]/[E], an optional sign and at least one digit. *)
Definition parse_exp (s : string) : parsed Z :=
  match (match expect "e" s with Some r => Some r | None => expect "E" s end)
  with
  | Some r =>
      let '(neg, r1) := match expect "-" r with
                        | Some r1 => (true, r1)
                        | None => match expect "+" r with
                                  | Some r1 => (false, r1)
                                  | None => (false, r)
                                  end
                        end in
      let '(e, count, r2) := digits 0 0 r1 in
      match count with
      | O => SyntaxError
      | _ => Parsed (if neg then (- e)%Z else e) r2
      end
  | None => Parsed 0%Z s
  end.

Definition parse_number (s : string) : parsed num :=
  let '(neg, s1) := match expect "-" s with
                    | Some r => (true, r)
                    | None => (false, s)
                    end in
  match parse_int s1 with
  | Parsed i s2 =>
      match parse_frac i s2 with
      | Parsed (m, shift) s3 =>
          match parse_exp s3 with
          | Parsed e s4 =>
              Parsed (Num (if neg then (- m)%Z else m) (e + shift)%Z) s4
          | SyntaxError => SyntaxError
          | OutOfFuel => OutOfFuel
          end
      | SyntaxError => SyntaxError
      | OutOfFuel => OutOfFuel
      end
  | SyntaxError => SyntaxError
  | OutOfFuel => OutOfFuel
  end.

Definition hex_val (c : ascii) : option N :=
  let n := N_of_ascii c in
  if ((48 <=? n) && (n <=? 57))%N then Some (n - 48)%N
  else if ((65 <=? n) && (n <=? 70))%N then Some (n - 55)%N
  else if ((97 <=? n) && (n <=? 102))%N then Some (n - 87)%N
  else None.

Definition hex4 (a b c d : ascii) : option N :=
  match hex_val a, hex_val b, hex_val c, hex_val d with
  | Some x, Some y, Some z, Some w =>
      Some (((x * 16 + y) * 16 + z) * 16 + w)%N
  | _, _, _, _ => None
  end.

(** The code unit of a [\uXXXX] escape, as UTF-8 text. *)
Definition utf8 (n : N) : string :=
  if (n <? 128)%N then String (ascii_of_N n) ""
  else if (n <? 2048)%N then
    String (ascii_of_N (192 + n / 64))
      (String (ascii_of_N (128 + n mod 64)) "")
  else
    String (ascii_of_N (224 + n / 4096))
      (String (ascii_of_N (128 + (n / 64) mod 64))
         (String (ascii_of_N (128 + n mod 64)) "")).

Definition escape (c : ascii) : option ascii :=
  (if c =? "034" then Some "034"
   else if c =? "\" then Some "\"
   else if c =? "/" then Some "/"
   else if c =? "b" then Some "008"
   else if c =? "f" then Some "012"
   else if c =? "n" then Some "010"
   else if c =? "r" then Some "013"
   else if c =? "t" then Some "009"
   else None)%char.

(** The characters of a string literal, after its opening quote. *)
Fixpoint parse_chars (s : string) : parsed string :=
  match s with
  | "" => SyntaxError
  | String c r =>
      if (c =? "034")%char then Parsed "" r
      else if (c =? "\")%char then
        match r with
        | String e r1 =>
            match escape e with
            | Some c' => pmap (String c') (parse_chars r1)
            | None =>
                if (e =? "u")%char then
                  match r1 with
                  | String h1 (String h2 (String h3 (String h4 r2))) =>
                      match hex4 h1 h2 h3 h4 with
                      | Some n => pmap (append (utf8 n)) (parse_chars r2)
                      | None => SyntaxError
                      end
                  | _ => SyntaxError
                  end
                else SyntaxError
            end
        | "" => SyntaxError
        end
      else if (nat_of_ascii c <? 32)%nat then SyntaxError
      else pmap (String c) (parse_chars r)
  end.

(** A literal name: [true], [false] or [null]. *)
Definition keyword (name : string) (s : string) : option string :=
  if String.prefix name s then Some (Text.slice (String.length name) s)
  else None.

(** value, elements (after [[]) and members (after [{]); a member whose
    key is already there replaces the earlier one. *)
Fixpoint parse_value (fuel : nat) (s : string) {struct fuel} : parsed json :=
  match fuel with
  | O => OutOfFuel
  | S fuel' =>
      let s := skip_ws s in
      match expect "{" s with
      | Some r =>
          match expect "}" (skip_ws r) with
          | Some r' => Parsed (JObj []) r'
          | None => parse_members fuel' [] r
          end
      | None =>
      match expect "[" s with
      | Some r =>
          match expect "]" (skip_ws r) with
          | Some r' => Parsed (JArr []) r'
          | None => parse_elements fuel' [] r
          end
      | None =>
      match expect "034" s with
      | Some r => pmap JStr (parse_chars r)
      | None =>
      match keyword "true" s with
      | Some r => Parsed (JBool true) r
      | None =>
      match keyword "false" s with
      | Some r => Parsed (JBool false) r
      | None =>
      match keyword "null" s with
      | Some r => Parsed JNull r
      | None => pmap JNum (parse_number s)
      end end end end end end
  end
with parse_elements (fuel : nat) (acc : list json) (s : string)
       {struct fuel} : parsed json :=
  match fuel with
  | O => OutOfFuel
  | S fuel' =>
      match parse_value fuel' s with
      | Parsed v r =>
          match expect "," (skip_ws r) with
          | Some r' => parse_elements fuel' (acc ++ [v]) r'
          | None =>
              match expect "]" (skip_ws r) with
              | Some r' => Parsed (JArr (acc ++ [v])) r'
              | None => SyntaxError
              end
          end
      | SyntaxError => SyntaxError
      | OutOfFuel => OutOfFuel
      end
  end
with parse_members (fuel : nat) (acc : list (string * json)) (s : string)
       {struct fuel} : parsed json :=
  match fuel with
  | O => OutOfFuel
  | S fuel' =>
      match expect "034" (skip_ws s) with
      | Some r =>
          match parse_chars r with
          | Parsed k r1 =>
              match expect ":" (skip_ws r1) with
              | Some r2 =>
                  match parse_value fuel' r2 with
                  | Parsed v r3 =>
                      match expect "," (skip_ws r3) with
                      | Some r4 => parse_members fuel' (set k v acc) r4
                      | None =>
                          match expect "}" (skip_ws r3) with
                          | Some r4 => Parsed (JObj (set k v acc)) r4
                          | None => SyntaxError
                          end
                      end
                  | SyntaxError => SyntaxError
                  | OutOfFuel => OutOfFuel
                  end
              | None => SyntaxError
              end
          | SyntaxError => SyntaxError
          | OutOfFuel => OutOfFuel
          end
      | None => SyntaxError
      end
  end.

(** Enough fuel for a text: see [parse_fuel]. *)
Definition fuel_for (s : string) : nat := 2 * String.length s + 1.

(** [JSON.parse(s)]: [None] is a thrown [SyntaxError]. *)
Definition parse (s : string) : option json :=
  match parse_value (fuel_for s) s with
  | Parsed j r => match skip_ws r with "" => Some j | _ => None end
  | _ => None
  end.

End JSON.

Import JSON.

(* ===================================================================== *)
(** ** The handler of POST /v1/chat/completions *)
(* ===================================================================== *)

Module Server.

(** *** What the handler acts on *)

(** A [res.write]: the literal ['data: [DONE]\n\n'], or
    [`data: ${JSON.stringify(openaiChunk)}\n\n`] with the text printed. *)
Inductive frame : Type :=
| Done
| Data (payload : option json).

(** A [console.error(label, what)]. *)
Inductive logged : Type :=
| Log (label : string) (what : value).

(** The response object [res], the console, the clock and the calls made
    to the upstream. *)
Record world : Type := World {
  statusCode : value;
  headers : list (string * string);
  sent : list (option json);
  written : list frame;
  ended : bool;
  console : list logged;
  ticks : nat;
  posted : list (option json * bool)
}.

Definition fresh : world :=
  World (VNum (int 200)) [] [] [] false [] 0 [].

(** What [response.data] emits when the response type is ['stream'];
    [chunk] is a [Buffer], kept as its bytes. *)
Inductive event : Type :=
| OnData (chunk : string)
| OnEnd
| OnError (err : value).

(** The upstream, as one request sees it. *)
Record upstream : Type := Upstream {
  rejects : option value;
  data : json;
  events : list event
}.

(** *** Computations: state, and exceptions that keep the state *)

Definition M (A : Type) : Type := world -> outcome A * world.

Definition ret {A : Type} (a : A) : M A := fun w => (Ok a, w).

Definition bind {A B : Type} (c : M A) (k : A -> M B) : M B :=
  fun w => match c w with
           | (Ok a, w') => k a w'
           | (Throw e, w') => (Throw e, w')
           end.

Definition throw {A : Type} (e : value) : M A := fun w => (Throw e, w).

(** [try { c } catch (e) { h e }] *)
Definition try_catch {A : Type} (c : M A) (h : value -> M A) : M A :=
  fun w => match c w with
           | (Ok a, w') => (Ok a, w')
           | (Throw e, w') => h e w'
           end.

Definition lift {A : Type} (o : outcome A) : M A := fun w => (o, w).

Declare Scope js_scope.
Delimit Scope js_scope with js.
Notation "x <- c ;; k" := (bind c (fun x => k))
  (at level 61, c at next level, right associativity) : js_scope.
Notation "c ;; k" := (bind c (fun _ => k))
  (at level 61, right associativity) : js_scope.
Local Open Scope js_scope.

(** [l.forEach(f)] *)
Fixpoint forEach {A : Type} (l : list A) (f : A -> M unit) : M unit :=
  match l with
  | [] => ret tt
  | x :: r => f x ;; forEach r f
  end.

Definition res_status (code : value) : M unit :=
  fun w => (Ok tt, World code (headers w) (sent w) (written w) (ended w)
                     (console w) (ticks w) (posted w)).

Definition res_setHeader (k v : string) : M unit :=
  fun w => (Ok tt, World (statusCode w) (headers w ++ [(k, v)]) (sent w)
                     (written w) (ended w) (console w) (ticks w) (posted w)).

(** [res.json(v)] prints [v] and ends the response. *)
Definition res_json (v : value) : M unit :=
  fun w => (Ok tt, World (statusCode w) (headers w) (sent w ++ [stringify v])
                     (written w) true (console w) (ticks w) (posted w)).

Definition res_write (f : frame) : M unit :=
  fun w => (Ok tt, World (statusCode w) (headers w) (sent w)
                     (written w ++ [f]) (ended w) (console w) (ticks w)
                     (posted w)).

Definition res_end : M unit :=
  fun w => (Ok tt, World (statusCode w) (headers w) (sent w) (written w)
                     true (console w) (ticks w) (posted w)).

Definition console_error (label : string) (what : value) : M unit :=
  fun w => (Ok tt, World (statusCode w) (headers w) (sent w) (written w)
                     (ended w) (console w ++ [Log label what]) (ticks w)
                     (posted w)).

(** [JSON.parse(s)] *)
Definition syntax_error : value :=
  VObj [("name", VStr "SyntaxError");
        ("message", VStr "Unexpected token in JSON")].

Definition JSON_parse (s : string) : M value :=
  match JSON.parse s with
  | Some j => ret (of_json j)
  | None => throw syntax_error
  end.

(** [const { k } = v] *)
Definition destructure (v : value) (k : string) : M value :=
  if nullish v
  then throw (error_object ("Cannot destructure property '" ++ k
                              ++ "' of 'req.body' as it is "
                              ++ describe v ++ "."))
  else ret (lookup v k).

(** [v.a.b.c] *)
Fixpoint path (v : value) (ks : list string) : M value :=
  match ks with
  | [] => ret v
  | k :: r => x <- lift (get v k) ;; path x r
  end.

(** [f] applied to what is at [v.a.b.c], in place. *)
Fixpoint modify (ks : list string) (f : value -> value) (v : value) : value :=
  match ks with
  | [] => f v
  | k :: r =>
      match v with
      | VObj props =>
          VObj (map (fun kv => if fst kv =? k
                               then (fst kv, modify r f (snd kv))
                               else kv) props)
      | VArr xs =>
          match index_of_key k with
          | Some i =>
              VArr (firstn i xs ++
                    match skipn i xs with
                    | x :: rest => modify r f x :: rest
                    | [] => []
                    end)
          | None => v
          end
      | _ => v
      end
  end.

(** [delete o[k]] *)
Definition delete (k : string) (o : value) : value :=
  match o with
  | VObj props => VObj (remove k props)
  | _ => o
  end.

(** The property key a value is used as; only strings get that far. *)
Definition key_of (v : value) : string :=
  match v with VStr s => s | _ => "" end.

(** *** The constants *)

Definition DEFAULT_NIM_MODEL : string := "meta/llama-3.1-70b-instruct".

Definition MODEL_MAPPING : value :=
  VObj [ ("gpt-3.5-turbo", VStr "meta/llama-3.1-8b-instruct");
         ("gpt-4", VStr "meta/llama-3.1-70b-instruct");
         ("gpt-4-turbo", VStr "meta/llama-3.1-405b-instruct");
         ("gpt-4o", VStr "meta/llama-3.1-405b-instruct");
         ("gpt-4o-mini", VStr "meta/llama-3.1-8b-instruct");
         ("claude-3-opus", VStr "meta/llama-3.1-405b-instruct");
         ("claude-3-sonnet", VStr "meta/llama-3.1-70b-instruct");
         ("claude-3-haiku", VStr "meta/llama-3.1-8b-instruct");
         ("gemini-pro", VStr "meta/llama-3.1-70b-instruct") ].

(** [let nimModel = MODEL_MAPPING[model] || DEFAULT_NIM_MODEL] *)
Definition nimModel (model : value) : value :=
  js_or (lookup MODEL_MAPPING (key_of model)) (VStr DEFAULT_NIM_MODEL).

Section Handler.

(** [clock k] is what the [k]-th call of [Date.now()] returns. *)
Variable clock : nat -> Z.
Variable up : upstream.

Definition Date_now : M Z :=
  fun w => (Ok (clock (ticks w)),
            World (statusCode w) (headers w) (sent w) (written w) (ended w)
              (console w) (S (ticks w)) (posted w)).

(** [await axios.post(url, nimRequest, { headers, responseType })] *)
Definition axios_post (nimRequest : value) (stream : bool) : M unit :=
  fun w =>
    let w' := World (statusCode w) (headers w) (sent w) (written w) (ended w)
                (console w) (ticks w)
                (posted w ++ [(stringify nimRequest, stream)]) in
    match rejects up with
    | Some e => (Throw e, w')
    | None => (Ok tt, w')
    end.

(** *** The stream: lines 113-167 *)

(** The object literal [openaiChunk]: lines 131-144. *)
Definition openaiChunk (model nimData : value) : M value :=
  t1 <- Date_now ;;
  t2 <- Date_now ;;
  c1 <- lift (get nimData "choices") ;;
  c2 <- lift (get nimData "choices") ;;
  c3 <- lift (get nimData "choices") ;;
  ret (VObj [ ("id", VStr ("chatcmpl-" ++ Text.of_Z t1));
              ("object", VStr "chat.completion.chunk");
              ("created", VNum (int (t2 / 1000)));
              ("model", model);
              ("choices",
               VArr [ VObj [
                 ("index", VNum (int 0));
                 ("delta",
                  VObj [ ("role", opt (opt (opt c1 "0") "delta") "role");
                         ("content",
                          js_or (opt (opt (opt c2 "0") "delta") "content")
                             (VStr "")) ]);
                 ("finish_reason",
                  js_or (opt (opt c3 "0") "finish_reason") VNull) ] ]) ]).

(** The body of [lines.forEach(line => ...)]. *)
Definition on_line (model : value) (line : string) : M unit :=
  if Text.startsWith line "data: " then
    if Text.includes line "[DONE]" then
      res_write Done
    else
      try_catch
        (nimData <- JSON_parse (Text.slice 6 line) ;;
         chunk <- openaiChunk model nimData ;;
         role <- path chunk ["choices"; "0"; "delta"; "role"] ;;
         let chunk :=
           if negb (truthy role)
           then modify ["choices"; "0"; "delta"] (delete "role") chunk
           else chunk in
         res_write (Data (stringify chunk)))
        (fun e => console_error "Stream parse error:" e)
  else ret tt.

(** [response.data.on('data', chunk => ...)], with the variable [buffer]
    passed in and handed back. *)
Definition on_data (model : value) (buffer : string) (chunk : string)
  : M string :=
  let buffer := (buffer ++ Buffer.toString chunk)%string in
  let lines := Text.split Text.newline buffer in
  let '(last, lines) := Text.pop lines in
  let buffer := match last with
                | Some s => if s =? "" then "" else s
                | None => ""
                end in
  forEach lines (on_line model) ;;
  ret buffer.

(** [response.data.on('end', ...)] *)
Definition on_end : M unit :=
  res_write Done ;; res_end.

(** [response.data.on('error', ...)] *)
Definition on_error (err : value) : M unit :=
  console_error "Stream error:" err ;; res_end.

(** The events of the upstream stream, given to the listeners in order. *)
Fixpoint deliver (model : value) (buffer : string) (evs : list event)
  : M unit :=
  match evs with
  | [] => ret tt
  | OnData chunk :: r =>
      buffer' <- on_data model buffer chunk ;; deliver model buffer' r
  | OnEnd :: r => on_end ;; deliver model buffer r
  | OnError err :: r => on_error err ;; deliver model buffer r
  end.

(** *** The handler: lines 58-210 *)

(** The object literal [openaiResponse]: lines 171-189. *)
Definition openaiResponse (model response_data : value) : M value :=
  t1 <- Date_now ;;
  t2 <- Date_now ;;
  c1 <- lift (get response_data "choices") ;;
  c2 <- lift (get response_data "choices") ;;
  u1 <- lift (get response_data "usage") ;;
  u2 <- lift (get response_data "usage") ;;
  u3 <- lift (get response_data "usage") ;;
  ret (VObj [ ("id", VStr ("chatcmpl-" ++ Text.of_Z t1));
              ("object", VStr "chat.completion");
              ("created", VNum (int (t2 / 1000)));
              ("model", model);
              ("choices",
               VArr [ VObj [
                 ("index", VNum (int 0));
                 ("message",
                  VObj [ ("role", VStr "assistant");
                         ("content",
                          js_or (opt (opt (opt c1 "0") "message") "content")
                             (VStr "")) ]);
                 ("finish_reason",
                  js_or (opt (opt c2 "0") "finish_reason") (VStr "stop")) ] ]);
              ("usage",
               VObj [ ("prompt_tokens",
                       js_or (opt u1 "prompt_tokens") (VNum (int 0)));
                      ("completion_tokens",
                       js_or (opt u2 "completion_tokens") (VNum (int 0)));
                      ("total_tokens",
                       js_or (opt u3 "total_tokens") (VNum (int 0))) ]) ]).

(** The [try] block.  It returns the [model] the stream listeners were
    registered with, if they were. *)
Definition attempt (body : json) : M (option value) :=
  let req_body := of_json body in
  model <- destructure req_body "model" ;;
  messages <- destructure req_body "messages" ;;
  temperature <- destructure req_body "temperature" ;;
  max_tokens <- destructure req_body "max_tokens" ;;
  stream <- destructure req_body "stream" ;;
  if negb (truthy model) || negb (typeof model =? "string") then
    res_status (VNum (int 400)) ;;
    res_json (VObj [ ("error", VObj [
      ("message", VStr "you must provide a model parameter");
      ("type", VStr "invalid_request_error");
      ("param", VStr "model");
      ("code", VNull) ]) ]) ;;
    ret None
  else if negb (truthy messages) || negb (isArray messages)
          || match messages with
             | VArr xs => (List.length xs =? 0)%nat
             | _ => false
             end then
    res_status (VNum (int 400)) ;;
    res_json (VObj [ ("error", VObj [
      ("message",
       VStr "messages is required and must be a non-empty array");
      ("type", VStr "invalid_request_error");
      ("param", VStr "messages");
      ("code", VNull) ]) ]) ;;
    ret None
  else
    let nimRequest :=
      VObj [ ("model", nimModel model);
             ("messages", messages);
             ("temperature",
              match temperature with
              | VUndefined => VNum (Num 7 (-1))
              | _ => temperature
              end);
             ("max_tokens", js_or max_tokens (VNum (int 2048)));
             ("stream", js_or stream (VBool false)) ] in
    axios_post nimRequest (truthy stream) ;;
    if truthy stream then
      res_setHeader "Content-Type" "text/event-stream" ;;
      res_setHeader "Cache-Control" "no-cache" ;;
      res_setHeader "Connection" "keep-alive" ;;
      ret (Some model)
    else
      response <- openaiResponse model (of_json (data up)) ;;
      res_json response ;;
      ret None.

(** The [catch (error)] block. *)
Definition recover (error : value) : M (option value) :=
  r1 <- lift (get error "response") ;;
  m1 <- lift (get error "message") ;;
  console_error "Proxy error:" (js_or (opt r1 "data") m1) ;;
  r2 <- lift (get error "response") ;;
  let statusCode := js_or (opt r2 "status") (VNum (int 500)) in
  r3 <- lift (get error "response") ;;
  m2 <- lift (get error "message") ;;
  let errorMessage :=
    js_or (js_or (opt (opt (opt r3 "data") "error") "message") m2)
       (VStr "Internal server error") in
  res_status statusCode ;;
  res_json (VObj [ ("error", VObj [
    ("message", errorMessage);
    ("type", VStr "invalid_request_error");
    ("param", VNull);
    ("code", statusCode) ]) ]) ;;
  ret None.

(** The handler, followed by the stream events its listeners receive. *)
Definition chat_completions (body : json) : M unit :=
  listening <- try_catch (attempt body) recover ;;
  match listening with
  | Some model => deliver model "" (events up)
  | None => ret tt
  end.

End Handler.

(** One request, from a fresh response object. *)
Definition serve (clock : nat -> Z) (up : upstream) (body : json) : world :=
  snd (chat_completions clock up body fresh).

End Server.

Import Server.

(* ===================================================================== *)
(** ** The data model, and the reading of a run *)
(* ===================================================================== *)

(** *** Reading a JSON text the way the handler reads the parsed value *)

(** The own property [j[k]] of a parsed text. *)
Definition member (j : json) (k : string) : option json :=
  match j with
  | JObj props => assoc k props
  | JArr xs =>
      if k =? "length" then Some (JNum (int (Z.of_nat (List.length xs))))
      else match index_of_key k with
           | Some i => nth_error xs i
           | None => None
           end
  | JStr s =>
      if k =? "length" then Some (JNum (int (Z.of_nat (String.length s))))
      else match index_of_key k with
           | Some i => match String.get i s with
                       | Some c => Some (JStr (String c ""))
                       | None => None
                       end
           | None => None
           end
  | _ => None
  end.

(** [o?.k], where [None] is [undefined]. *)
Definition chain (o : option json) (k : string) : option json :=
  match o with
  | None | Some JNull => None
  | Some j => member j k
  end.

(** The runtime value of [o]. *)
Definition val (o : option json) : value :=
  match o with
  | Some j => of_json j
  | None => VUndefined
  end.

(** [o || d] *)
Definition or_else (o : option json) (d : json) : json :=
  match o with
  | Some j => if truthy (of_json j) then j else d
  | None => d
  end.

(** *** What goes on the wire, in the words of the data model *)

(** The [model] member, as [JSON.stringify] prints it. *)
Definition model_field (model : value) : list (string * json) :=
  match stringify model with
  | Some m => [("model", m)]
  | None => []
  end.

(** The [role] member of a delta: there when the upstream gave a role
    that is not empty, left out otherwise. *)
Definition role_field (role : option json) : list (string * json) :=
  match role with
  | Some r => if truthy (of_json r) then [("role", r)] else []
  | None => []
  end.

(** One streaming unit, from one upstream delta event. *)
Definition StreamChunk (model : value) (t1 t2 : Z) (upstream : json) : json :=
  let choice := chain (member upstream "choices") "0" in
  let delta := chain choice "delta" in
  JObj ([ ("id", JStr ("chatcmpl-" ++ Text.of_Z t1));
          ("object", JStr "chat.completion.chunk");
          ("created", JNum (int (t2 / 1000))) ]
        ++ model_field model ++
        [ ("choices",
           JArr [ JObj [
             ("index", JNum (int 0));
             ("delta",
              JObj (role_field (chain delta "role") ++
                    [ ("content", or_else (chain delta "content") (JStr "")) ]));
             ("finish_reason",
              or_else (chain choice "finish_reason") JNull) ] ]) ]).

(** The non-streaming result, from the upstream body. *)
Definition CompletionEnvelope (model : value) (t1 t2 : Z) (upstream : json)
  : json :=
  let choice := chain (member upstream "choices") "0" in
  let usage := member upstream "usage" in
  JObj ([ ("id", JStr ("chatcmpl-" ++ Text.of_Z t1));
          ("object", JStr "chat.completion");
          ("created", JNum (int (t2 / 1000))) ]
        ++ model_field model ++
        [ ("choices",
           JArr [ JObj [
             ("index", JNum (int 0));
             ("message",
              JObj [ ("role", JStr "assistant");
                     ("content",
                      or_else (chain (chain choice "message") "content")
                        (JStr "")) ]);
             ("finish_reason",
              or_else (chain choice "finish_reason") (JStr "stop")) ] ]);
          ("usage",
           JObj [ ("prompt_tokens",
                   or_else (chain usage "prompt_tokens") (JNum (int 0)));
                  ("completion_tokens",
                   or_else (chain usage "completion_tokens") (JNum (int 0)));
                  ("total_tokens",
                   or_else (chain usage "total_tokens") (JNum (int 0))) ]) ]).

(** *** The world after one effect *)

Definition wrote (f : frame) (w : world) : world := snd (res_write f w).

Definition complained (label : string) (what : value) (w : world) : world :=
  snd (console_error label what w).

(** Two readings of the clock later. *)
Definition later (w : world) : world :=
  World (statusCode w) (headers w) (sent w) (written w) (ended w)
    (console w) (S (S (ticks w))) (posted w).

(** The [TypeError] of reading [k] from [null]. *)
Definition null_error (k : string) : value :=
  error_object ("Cannot read properties of null (reading '" ++ k ++ "')").

(** *** The stream as text *)

(** The complete lines of a text: all that [split] gives but the last. *)
Definition lines_of (s : string) : list string :=
  snd (Text.pop (Text.split Text.newline s)).

(** What is left in [buffer]: [lines.pop() || '']. *)
Definition carry (s : string) : string :=
  match fst (Text.pop (Text.split Text.newline s)) with
  | Some x => if x =? "" then "" else x
  | None => ""
  end.

(** The world after [lines.forEach(...)]. *)
Definition after_lines (clock : nat -> Z) (model : value)
  (lines : list string) (w : world) : world :=
  fold_left (fun w line => snd (on_line clock model line w)) lines w.

(** A line that is answered with the terminal sentinel. *)
Definition is_sentinel (line : string) : bool :=
  Text.startsWith line "data: " && Text.includes line "[DONE]".

(** How many times the terminal sentinel was written. *)
Definition sentinels (fs : list frame) : nat :=
  List.length (filter (fun f => match f with Done => true | Data _ => false end)
                 fs).

(** The text of the chunks of a stream: what [buffer += chunk.toString()]
    adds up to, chunk after chunk. *)
Definition joined (chunks : list string) : string :=
  fold_right (fun chunk text => (Buffer.toString chunk ++ text)%string) ""
    chunks.

(** Bytes that are ASCII characters, all of them. *)
Definition ascii_text (s : string) : bool :=
  forallb (fun c => (nat_of_ascii c <? 128)%nat) (list_ascii_of_string s).

(** The chunk ends between two characters: no multi-byte sequence is
    open after its last byte. *)
Definition ends_on_a_character (chunk : string) : bool :=
  (Buffer.needed (Buffer.after Buffer.idle chunk) =? 0)%nat.

(** The [content] of the delta of a record. *)
Definition content_of (record : json) : option json :=
  chain (chain (chain (member record "choices") "0") "delta") "content".

(** *** The request, in the words of the data model *)

(** The [model] of an inbound request: a string that is not empty. *)
Definition requested_model (body : json) : option string :=
  match member body "model" with
  | Some (JStr s) => if s =? "" then None else Some s
  | _ => None
  end.

(** The [messages] of an inbound request: a sequence with at least one
    element. *)
Definition requested_messages (body : json) : option (list json) :=
  match member body "messages" with
  | Some (JArr (m :: ms)) => Some (m :: ms)
  | _ => None
  end.

(** The effective [stream] flag. *)
Definition requested_stream (body : json) : bool :=
  truthy (val (member body "stream")).

(** The body posted to the upstream for a request that passed validation. *)
Definition UpstreamRequest (body : json) (model : string)
  (messages : list json) : json :=
  JObj (model_field (nimModel (VStr model)) ++
        [ ("messages", JArr messages);
          ("temperature",
           match member body "temperature" with
           | Some t => t
           | None => JNum (Num 7 (-1))
           end);
          ("max_tokens", or_else (member body "max_tokens") (JNum (int 2048)));
          ("stream", or_else (member body "stream") (JBool false)) ]).

Definition ErrorEnvelope (message param code : json) : json :=
  JObj [ ("error", JObj [ ("message", message);
                          ("type", JStr "invalid_request_error");
                          ("param", param);
                          ("code", code) ]) ].

(** [a || b], where [None] is [undefined]. *)
Definition first_truthy (a b : option json) : option json :=
  match a with
  | Some j => if truthy (of_json j) then Some j else b
  | None => b
  end.

(** *** The world after the handler's steps *)

Definition with_status (code : value) (w : world) : world :=
  snd (res_status code w).

Definition answered (body : json) (w : world) : world :=
  World (statusCode w) (headers w) (sent w ++ [Some body]) (written w) true
    (console w) (ticks w) (posted w).

Definition called (request : json) (stream : bool) (w : world) : world :=
  World (statusCode w) (headers w) (sent w) (written w) (ended w)
    (console w) (ticks w) (posted w ++ [(Some request, stream)]).

Definition streaming (w : world) : world :=
  World (statusCode w)
    (headers w ++ [ ("Content-Type", "text/event-stream");
                    ("Cache-Control", "no-cache");
                    ("Connection", "keep-alive") ])
    (sent w) (written w) (ended w) (console w) (ticks w) (posted w).

(** The world after the [catch] block has dealt with the error [e]. *)
Definition recovered (e : json) (w : world) : world :=
  let response := member e "response" in
  let status := or_else (chain response "status") (JNum (int 500)) in
  let message :=
    or_else (first_truthy
               (chain (chain (chain response "data") "error") "message")
               (member e "message"))
      (JStr "Internal server error") in
  answered (ErrorEnvelope message JNull status)
    (with_status (of_json status)
       (complained "Proxy error:"
          (val (first_truthy (chain response "data") (member e "message")))
          w)).

(** *** A failed dispatch *)

(** What [axios.post] rejects with: the text of the failure and, when the
    upstream answered, its status and body. *)
Record AxiosError : Type := {
  failure_message : string;
  failure_response : option (Z * json)
}.

(** The error object the [catch] block receives. *)
Definition thrown (e : AxiosError) : json :=
  JObj (("message", JStr (failure_message e)) ::
        match failure_response e with
        | Some (status, body) =>
            [ ("response", JObj [ ("status", JNum (int status));
                                  ("data", body) ]) ]
        | None => []
        end).

(** The upstream's status when there is one, [500] otherwise. *)
Definition status_of (e : AxiosError) : Z :=
  match failure_response e with
  | Some (status, _) => if (status =? 0)%Z then 500%Z else status
  | None => 500%Z
  end.

(** The upstream's own message, when its body has one. *)
Definition upstream_message (e : AxiosError) : option json :=
  match failure_response e with
  | Some (_, body) =>
      match chain (chain (Some body) "error") "message" with
      | Some m => if truthy (of_json m) then Some m else None
      | None => None
      end
  | None => None
  end.

(** The message used otherwise: the text of the failure, or a fixed one. *)
Definition generic_message (e : AxiosError) : string :=
  if failure_message e =? "" then "Internal server error"
  else failure_message e.

(** *** Reading a response *)

(** A validation failure: status 400, one error envelope naming [param],
    nothing written to a stream, nothing posted to the upstream. *)
Definition refused (param message : string) (w : world) : Prop :=
  statusCode w = VNum (int 400) /\
  sent w = [ Some (JObj [ ("error", JObj [
               ("message", JStr message);
               ("type", JStr "invalid_request_error");
               ("param", JStr param);
               ("code", JNull) ]) ]) ] /\
  written w = [] /\
  posted w = [].

(** A number that is not negative. *)
Definition non_negative (j : json) : Prop :=
  exists n, j = JNum n /\ (0 <= mant n)%Z.

(** The magnitude from which on a number literal is held as [Infinity]:
    [2^1024 - 2^970], halfway between the largest binary64 number and
    [2^1024]. *)
Definition overflow : Z := 2 ^ 1024 - 2 ^ 970.

(** A number literal of magnitude below [overflow]: one that binary64
    holds as a finite number. *)
Definition finite (n : num) : bool :=
  (if 0 <=? expo n then Z.abs (mant n) * 10 ^ expo n <? overflow
   else Z.abs (mant n) <? overflow * 10 ^ (- expo n))%Z.

(** A number that is not negative and is finite. *)
Definition counted (j : json) : Prop :=
  exists n, j = JNum n /\ (0 <= mant n)%Z /\ finite n = true.

(** A usage counter of the upstream that gives a usage field [>= 0]: a
    falsy value ([null], [false], [""], [0]), which the default replaces,
    or a number that is not negative and is finite. *)
Definition countable (j : json) : Prop :=
  truthy (of_json j) = false \/ counted j.

(** The three usage counters of an envelope are numbers, none negative. *)
Definition usage_non_negative (envelope : json) : Prop :=
  forall k, In k ["prompt_tokens"; "completion_tokens"; "total_tokens"] ->
    exists j, chain (member envelope "usage") k = Some j /\ non_negative j.

(** A key that is no property of [Object.prototype]. *)
Definition plain (k : string) : Prop := inherited k = VUndefined.

(** What the handler can write to a stream for a request naming [model]. *)
Definition stream_frame (model : value) (f : frame) : Prop :=
  f = Done \/
  exists t1 t2 upstream, f = Data (Some (StreamChunk model t1 t2 upstream)).

(** What the handler can send with [res.json] for the request [body]. *)
Definition json_reply (body : json) (p : option json) : Prop :=
  (exists x, p = Some (JObj [("error", x)])) \/
  (exists s t1 t2 upstream,
      requested_model body = Some s /\
      p = Some (CompletionEnvelope (VStr s) t1 t2 upstream)).


(** The line of the round-trip property, with its newline. *)
Definition content_A_line : string :=
  (dq "data: {'choices':[{'delta':{'content':'A'}}]}") ++ String newline "".

(** *** Sample requests and upstreams *)

Definition sample_clock (k : nat) : Z := 1700000000000 + Z.of_nat k.

Definition sample_messages : list json :=
  [ JObj [ ("role", JStr "user"); ("content", JStr "hi") ] ].

Definition sample_request (model : string) (stream : bool) : json :=
  JObj [ ("model", JStr model);
         ("messages",
          JArr [ JObj [ ("role", JStr "user"); ("content", JStr "hi") ] ]);
         ("stream", JBool stream) ].

Definition sample_failure : AxiosError :=
  {| failure_message := "Request failed with status code 429";
     failure_response :=
       Some (429%Z, JObj [ ("error", JObj [
                             ("message", JStr "rate limited") ]) ]) |}.

Definition sample_rejection : upstream :=
  Upstream (Some (of_json (thrown sample_failure))) JNull [].

Definition sample_answer : upstream :=
  Upstream None
    (JObj [ ("choices",
             JArr [ JObj [ ("message", JObj [ ("content", JStr "hello") ]);
                           ("finish_reason", JStr "stop") ] ]);
            ("usage", JObj [ ("prompt_tokens", JNum (int 3));
                             ("completion_tokens", JNum (int 1));
                             ("total_tokens", JNum (int 4)) ]) ])
    [].

Definition negative_usage : upstream :=
  Upstream None
    (JObj [ ("usage", JObj [ ("prompt_tokens", JNum (int (-5))) ]) ]) [].

Definition sample_chunks : list string :=
  [ (dq "data: {'choices':[{'delta':{'role':'assistant','content':'Hel");
    ((dq "lo'}}]}") ++ String newline "data: [DONE]" ++ String newline "")%string ].

Definition sample_stream : upstream :=
  Upstream None JNull (map OnData sample_chunks ++ [OnEnd]).

Definition done_then_end : upstream :=
  Upstream None JNull [ OnData ("data: [DONE]" ++ String newline "")%string; OnEnd ].

(** [U+00E9], e with an acute accent, in UTF-8: C3 A9. *)
Definition e_acute : string := String "195" (String "169" "").

(** The line [data: {"choices":[{"delta":{"content":"caf\u00e9"}}]}] with
    its newline, cut between the two bytes of its last letter. *)
Definition cafe_head : string :=
  (dq "data: {'choices':[{'delta':{'content':'caf" ++ String "195" "")%string.

Definition cafe_tail : string :=
  String "169" (dq "'}}]}" ++ String newline "").

Definition cafe_whole : upstream :=
  Upstream None JNull [ OnData (cafe_head ++ cafe_tail)%string; OnEnd ].

Definition cafe_cut : upstream :=
  Upstream None JNull [ OnData cafe_head; OnData cafe_tail; OnEnd ].




(* ===================================================================== *)
(** ** The model list, and more readings of a run *)
(* ===================================================================== *)

(** *** GET /v1/models: lines 43-55 *)

(** Where [i] goes among index keys kept in ascending order. *)
Fixpoint insert_index (i : nat) (l : list nat) : list nat :=
  match l with
  | [] => [i]
  | j :: r => if (i <=? j)%nat then i :: l else j :: insert_index i r
  end.

(** The keys of [l] that are array indices, ascending. *)
Fixpoint index_keys (l : list string) : list nat :=
  match l with
  | [] => []
  | k :: r =>
      match index_of_key k with
      | Some i => insert_index i (index_keys r)
      | None => index_keys r
      end
  end.

Definition index_key (i : nat) : string := Text.of_Z (Z.of_nat i).

(** [Object.keys(o)]: the index keys in ascending order, then the other
    own keys in insertion order. *)
Definition Object_keys (o : value) : list string :=
  match o with
  | VObj props =>
      let keys := map fst props in
      map index_key (index_keys keys) ++
      filter (fun k => match index_of_key k with
                       | Some _ => false
                       | None => true
                       end) keys
  | VArr xs => map index_key (seq 0 (List.length xs))
  | VStr s => map index_key (seq 0 (String.length s))
  | _ => []
  end.

(** The handler of [GET /v1/models]. *)
Definition list_models : M unit :=
  let models :=
    map (fun model => VObj [ ("id", VStr model);
                             ("object", VStr "model");
                             ("created", VNum (int 1677610602));
                             ("owned_by", VStr "openai") ])
      (Object_keys MODEL_MAPPING) in
  res_json (VObj [ ("object", VStr "list"); ("data", VArr models) ]).

(** The ids a model list names, in order. *)
Definition listed_ids (reply : json) : list (option json) :=
  match member reply "data" with
  | Some (JArr entries) => map (fun entry => member entry "id") entries
  | _ => []
  end.

(** *** Reading a stream *)

(** The character [c] occurs in [s]. *)
Fixpoint has (c : ascii) (s : string) : bool :=
  match s with
  | "" => false
  | String x r => (x =? c)%char || has c r
  end.

(** A line that makes the handler write a record. *)
Definition emits (line : string) : bool :=
  Text.startsWith line "data: " && negb (Text.includes line "[DONE]") &&
  match JSON.parse (Text.slice 6 line) with
  | Some JNull | None => false
  | Some _ => true
  end.

(** How many records were written. *)
Definition records (fs : list frame) : nat :=
  List.length (filter (fun f => match f with Data _ => true | Done => false end)
                 fs).

(** The upstream stream is over: ['end'] or ['error']. *)
Definition terminates (ev : event) : bool :=
  match ev with
  | OnData _ => false
  | OnEnd | OnError _ => true
  end.

(** The event-stream headers of lines 109-111. *)
Definition stream_headers : list (string * string) :=
  [ ("Content-Type", "text/event-stream");
    ("Cache-Control", "no-cache");
    ("Connection", "keep-alive") ].

(** The completion envelope in which everything is a default. *)
Definition default_envelope (model : string) (t1 t2 : Z) : json :=
  JObj [ ("id", JStr ("chatcmpl-" ++ Text.of_Z t1));
         ("object", JStr "chat.completion");
         ("created", JNum (int (t2 / 1000)));
         ("model", JStr model);
         ("choices",
          JArr [ JObj [
            ("index", JNum (int 0));
            ("message", JObj [ ("role", JStr "assistant");
                               ("content", JStr "") ]);
            ("finish_reason", JStr "stop") ] ]);
         ("usage", JObj [ ("prompt_tokens", JNum (int 0));
                          ("completion_tokens", JNum (int 0));
                          ("total_tokens", JNum (int 0)) ]) ].

(** Two worlds that differ at most in what was written, logged and read
    from the clock. *)
Definition same_response (w w' : world) : Prop :=
  statusCode w' = statusCode w /\
  headers w' = headers w /\
  sent w' = sent w /\
  ended w' = ended w /\
  posted w' = posted w.

(** *** More samples *)

Definition error_then_nothing : upstream :=
  Upstream None JNull
    (map OnData sample_chunks ++ [OnError (error_object "socket hang up")]).

Definition sample_stream_cut : upstream :=
  Upstream None JNull
    (map OnData (sample_chunks ++ [dq "data: {'choices':[]}"]) ++ [OnEnd]).

Definition network_down : upstream :=
  Upstream (Some (of_json (JObj [ ("message", JStr "Network Error") ])))
    JNull [].

Definition null_body : upstream := Upstream None JNull [].

Definition text_body : upstream :=
  Upstream None (JStr "<html>Bad gateway</html>") [].

Definition zero_request : json :=
  JObj [ ("model", JStr "gpt-4");
         ("messages", JArr sample_messages);
         ("temperature", JNum (int 0));
         ("max_tokens", JNum (int 0)) ].

Definition extended_request : json :=
  JObj [ ("model", JStr "gpt-4");
         ("messages", JArr sample_messages);
         ("top_p", JNum (Num 9 (-1)));
         ("stop", JArr [ JStr "END" ]);
         ("user", JStr "u-1") ].

(* ===================================================================== *)
(** ** Proofs *)
(* ===================================================================== *)

(** ** Facts about the parser: it consumes text and never runs dry *)

Lemma skip_ws_length (s : string) :
  String.length (skip_ws s) <= String.length s.
Proof.
  induction s as [|c r IH]; simpl; [lia|].
  destruct (is_ws c); simpl; lia.
Qed.

Lemma expect_length (c : ascii) (s r : string) :
  expect c s = Some r -> String.length s = S (String.length r).
Proof.
  destruct s as [|c' s']; simpl; [discriminate|].
  destruct (c' =? c)%char; [|discriminate].
  intros H; injection H as ->; reflexivity.
Qed.

Lemma slice_length (n : nat) (s : string) :
  String.length (slice n s) = String.length s - n.
Proof.
  revert s; induction n as [|n IH]; intros s; simpl; [lia|].
  destruct s; simpl; auto.
Qed.

Lemma prefix_length (p s : string) :
  String.prefix p s = true -> String.length p <= String.length s.
Proof.
  revert s; induction p as [|c p IH]; intros s; simpl; [lia|].
  destruct s as [|c' s]; simpl; [discriminate|].
  destruct (ascii_dec c c'); [|discriminate].
  intros H; apply IH in H; simpl; lia.
Qed.

Lemma keyword_length (name s r : string) :
  name <> "" -> keyword name s = Some r -> String.length r < String.length s.
Proof.
  unfold keyword; intros Hn.
  destruct (String.prefix name s) eqn:Hp; [|discriminate].
  intros H; injection H as <-.
  apply prefix_length in Hp. rewrite slice_length.
  destruct name; [congruence|]; simpl in *; lia.
Qed.

Lemma digits_length (s : string) :
  forall acc count a c r,
    digits acc count s = (a, c, r) ->
    String.length r + c = String.length s + count.
Proof.
  induction s as [|ch s IH]; intros acc count a c r; simpl.
  - intros H; injection H as <- <- <-; reflexivity.
  - destruct (is_digit ch).
    + intros H; apply IH in H; lia.
    + intros H; injection H as <- <- <-; reflexivity.
Qed.

Lemma parse_int_length (s : string) (i : Z) (r : string) :
  parse_int s = Parsed i r -> String.length r < String.length s.
Proof.
  unfold parse_int.
  destruct (expect "0" s) as [r0|] eqn:E.
  - intros H; injection H as <- <-. apply expect_length in E; lia.
  - destruct (digits 0 0 s) as [[a c] r'] eqn:D.
    destruct c; [discriminate|].
    intros H; injection H as <- <-. apply digits_length in D; lia.
Qed.

Lemma parse_frac_length (i : Z) (s : string) (x : Z * Z) (r : string) :
  parse_frac i s = Parsed x r -> String.length r <= String.length s.
Proof.
  unfold parse_frac.
  destruct (expect "." s) as [r0|] eqn:E.
  - destruct (digits i 0 r0) as [[a c] r'] eqn:D.
    destruct c; [discriminate|].
    intros H; injection H as <- <-.
    apply expect_length in E; apply digits_length in D; lia.
  - intros H; injection H as <- <-; lia.
Qed.

Lemma parse_exp_length (s : string) (e : Z) (r : string) :
  parse_exp s = Parsed e r -> String.length r <= String.length s.
Proof.
  unfold parse_exp.
  destruct (match expect "e" s with Some r0 => Some r0 | None => expect "E" s end)
    as [r0|] eqn:E.
  - assert (String.length s = S (String.length r0)) as Hs.
    { destruct (expect "e" s) eqn:E1.
      - injection E as <-; eapply expect_length; eauto.
      - eapply expect_length; eauto. }
    destruct (match expect "-" r0 with
              | Some r1 => (true, r1)
              | None => match expect "+" r0 with
                        | Some r1 => (false, r1)
                        | None => (false, r0)
                        end
              end) as [neg r1] eqn:Sg.
    assert (String.length r1 <= String.length r0) as Hr.
    { destruct (expect "-" r0) eqn:E1.
      - injection Sg as <- <-. apply expect_length in E1; lia.
      - destruct (expect "+" r0) eqn:E2.
        + injection Sg as <- <-. apply expect_length in E2; lia.
        + injection Sg as <- <-. lia. }
    destruct (digits 0 0 r1) as [[a c] r2] eqn:D.
    destruct c; [discriminate|].
    intros H; injection H as <- <-. apply digits_length in D; lia.
  - intros H; injection H as <- <-; lia.
Qed.

Lemma parse_number_length (s : string) (n : num) (r : string) :
  parse_number s = Parsed n r -> String.length r < String.length s.
Proof.
  unfold parse_number.
  destruct (match expect "-" s with
            | Some r0 => (true, r0)
            | None => (false, s)
            end) as [neg s1] eqn:Sg.
  assert (String.length s1 <= String.length s) as H1.
  { destruct (expect "-" s) eqn:E1.
    - injection Sg as <- <-. apply expect_length in E1; lia.
    - injection Sg as <- <-. lia. }
  destruct (parse_int s1) as [i s2| |] eqn:PI; try discriminate.
  destruct (parse_frac i s2) as [[m shift] s3| |] eqn:PF; try discriminate.
  destruct (parse_exp s3) as [e s4| |] eqn:PE; try discriminate.
  intros H; injection H as <- <-.
  apply parse_int_length in PI. apply parse_frac_length in PF.
  apply parse_exp_length in PE. lia.
Qed.

Lemma parse_int_fuel (s : string) : parse_int s <> OutOfFuel.
Proof.
  unfold parse_int. destruct (expect "0" s); [discriminate|].
  destruct (digits 0 0 s) as [[a c] r]. destruct c; discriminate.
Qed.

Lemma parse_frac_fuel (i : Z) (s : string) : parse_frac i s <> OutOfFuel.
Proof.
  unfold parse_frac. destruct (expect "." s); [|discriminate].
  destruct (digits i 0 s0) as [[a c] r]. destruct c; discriminate.
Qed.

Lemma parse_exp_fuel (s : string) : parse_exp s <> OutOfFuel.
Proof.
  unfold parse_exp.
  destruct (match expect "e" s with Some r0 => Some r0 | None => expect "E" s end)
    as [r0|]; [|discriminate].
  destruct (match expect "-" r0 with
            | Some r1 => (true, r1)
            | None => match expect "+" r0 with
                      | Some r1 => (false, r1)
                      | None => (false, r0)
                      end
            end) as [neg r1].
  destruct (digits 0 0 r1) as [[a c] r]. destruct c; discriminate.
Qed.

Lemma parse_number_fuel (s : string) : parse_number s <> OutOfFuel.
Proof.
  unfold parse_number.
  destruct (match expect "-" s with
            | Some r0 => (true, r0)
            | None => (false, s)
            end) as [neg s1].
  pose proof (parse_int_fuel s1) as HI.
  destruct (parse_int s1) as [i s2| |]; try congruence.
  pose proof (parse_frac_fuel i s2) as HF.
  destruct (parse_frac i s2) as [[m shift] s3| |]; try congruence.
  pose proof (parse_exp_fuel s3) as HE.
  destruct (parse_exp s3) as [e s4| |]; congruence.
Qed.

Lemma pmap_Parsed {A B : Type} (f : A -> B) (p : parsed A) (b : B) (r : string) :
  pmap f p = Parsed b r -> exists a, p = Parsed a r /\ b = f a.
Proof.
  destruct p; simpl; try discriminate.
  intros H; injection H as <- <-; eauto.
Qed.

Lemma pmap_fuel {A B : Type} (f : A -> B) (p : parsed A) :
  p <> OutOfFuel -> pmap f p <> OutOfFuel.
Proof. destruct p; simpl; congruence. Qed.

Lemma parse_chars_spec (n : nat) :
  forall s, String.length s <= n ->
    parse_chars s <> OutOfFuel /\
    forall k r, parse_chars s = Parsed k r -> String.length r < String.length s.
Proof.
  induction n as [|n IH]; intros s Hs.
  - destruct s; simpl in *; [|lia]. split; [discriminate|discriminate].
  - destruct s as [|c r]; [split; simpl; discriminate|].
    simpl in Hs. cbn [parse_chars].
    destruct (c =? "034")%char.
    { split; [discriminate|]. intros k r' H; injection H as <- <-; simpl; lia. }
    destruct (c =? "\")%char.
    { destruct r as [|e r1]; [split; discriminate|].
      simpl in Hs.
      destruct (escape e).
      - destruct (IH r1 ltac:(lia)) as [F L]. split.
        + apply pmap_fuel; exact F.
        + intros k r' H. apply pmap_Parsed in H as (k0 & H & _).
          apply L in H. simpl; lia.
      - destruct (e =? "u")%char; [|split; discriminate].
        destruct r1 as [|h1 [|h2 [|h3 [|h4 r2]]]]; try (split; discriminate).
        simpl in Hs.
        destruct (hex4 h1 h2 h3 h4); [|split; discriminate].
        destruct (IH r2 ltac:(lia)) as [F L]. split.
        + apply pmap_fuel; exact F.
        + intros k r' H. apply pmap_Parsed in H as (k0 & H & _).
          apply L in H. simpl; lia. }
    destruct (nat_of_ascii c <? 32)%nat; [split; discriminate|].
    destruct (IH r ltac:(lia)) as [F L]. split.
    + apply pmap_fuel; exact F.
    + intros k r' H. apply pmap_Parsed in H as (k0 & H & _).
      apply L in H. simpl; lia.
Qed.

Lemma parse_chars_fuel (s : string) : parse_chars s <> OutOfFuel.
Proof. apply (parse_chars_spec (String.length s) s); lia. Qed.

Lemma parse_chars_length (s k r : string) :
  parse_chars s = Parsed k r -> String.length r < String.length s.
Proof. apply (parse_chars_spec (String.length s) s); lia. Qed.

Ltac consumed :=
  repeat match goal with
         | H : expect _ _ = Some _ |- _ => apply expect_length in H
         | H : keyword _ _ = Some _ |- _ =>
             apply keyword_length in H; [|discriminate]
         | H : parse_chars _ = Parsed _ _ |- _ => apply parse_chars_length in H
         | H : parse_number _ = Parsed _ _ |- _ =>
             apply parse_number_length in H
         end.

Lemma parse_consumes (n : nat) :
  (forall s v r, parse_value n s = Parsed v r ->
                 String.length r < String.length s) /\
  (forall acc s v r, parse_elements n acc s = Parsed v r ->
                     String.length r < String.length s) /\
  (forall acc s v r, parse_members n acc s = Parsed v r ->
                     String.length r < String.length s).
Proof.
  induction n as [|n (IHv & IHe & IHm)].
  { repeat split; intros; discriminate. }
  repeat split.
  - intros s v r. simpl.
    pose proof (skip_ws_length s) as Hs.
    destruct (expect "{" (skip_ws s)) as [r1|] eqn:E1.
    { pose proof (skip_ws_length r1) as Hr1.
      destruct (expect "}" (skip_ws r1)) as [r2|] eqn:E2.
      - intros H; injection H as <- <-. consumed. lia.
      - intros H. apply IHm in H. consumed. lia. }
    destruct (expect "[" (skip_ws s)) as [r1|] eqn:E2.
    { pose proof (skip_ws_length r1) as Hr1.
      destruct (expect "]" (skip_ws r1)) as [r2|] eqn:E3.
      - intros H; injection H as <- <-. consumed. lia.
      - intros H. apply IHe in H. consumed. lia. }
    destruct (expect "034" (skip_ws s)) as [r1|] eqn:E3.
    { intros H. apply pmap_Parsed in H as (k & H & _). consumed. lia. }
    destruct (keyword "true" (skip_ws s)) as [r1|] eqn:K1.
    { intros H; injection H as <- <-. consumed. lia. }
    destruct (keyword "false" (skip_ws s)) as [r1|] eqn:K2.
    { intros H; injection H as <- <-. consumed. lia. }
    destruct (keyword "null" (skip_ws s)) as [r1|] eqn:K3.
    { intros H; injection H as <- <-. consumed. lia. }
    intros H. apply pmap_Parsed in H as (k & H & _). consumed. lia.
  - intros acc s v r. simpl.
    destruct (parse_value n s) as [x r1| |] eqn:PV; try discriminate.
    apply IHv in PV. pose proof (skip_ws_length r1) as Hr1.
    destruct (expect "," (skip_ws r1)) as [r2|] eqn:E1.
    { intros H. apply IHe in H. consumed. lia. }
    destruct (expect "]" (skip_ws r1)) as [r2|] eqn:E2; [|discriminate].
    intros H; injection H as <- <-. consumed. lia.
  - intros acc s v r. simpl.
    pose proof (skip_ws_length s) as Hs.
    destruct (expect "034" (skip_ws s)) as [r0|] eqn:E0; [|discriminate].
    destruct (parse_chars r0) as [k r1| |] eqn:PC; try discriminate.
    pose proof (skip_ws_length r1) as Hr1.
    destruct (expect ":" (skip_ws r1)) as [r2|] eqn:E1; [|discriminate].
    destruct (parse_value n r2) as [x r3| |] eqn:PV; try discriminate.
    apply IHv in PV. pose proof (skip_ws_length r3) as Hr3.
    destruct (expect "," (skip_ws r3)) as [r4|] eqn:E2.
    { intros H. apply IHm in H. consumed. lia. }
    destruct (expect "}" (skip_ws r3)) as [r4|] eqn:E3; [|discriminate].
    intros H; injection H as <- <-. consumed. lia.
Qed.

Lemma parse_value_length (n : nat) (s : string) (v : json) (r : string) :
  parse_value n s = Parsed v r -> String.length r < String.length s.
Proof. apply (parse_consumes n). Qed.

Lemma parse_fuel_enough (n : nat) :
  (forall s, 2 * String.length s + 1 <= n -> parse_value n s <> OutOfFuel) /\
  (forall acc s, 2 * String.length s + 2 <= n ->
                 parse_elements n acc s <> OutOfFuel) /\
  (forall acc s, 2 * String.length s + 2 <= n ->
                 parse_members n acc s <> OutOfFuel).
Proof.
  induction n as [|n (IHv & IHe & IHm)].
  { repeat split; intros; lia. }
  repeat split.
  - intros s Hn. simpl.
    pose proof (skip_ws_length s) as Hs.
    destruct (expect "{" (skip_ws s)) as [r1|] eqn:E1.
    { destruct (expect "}" (skip_ws r1)); [discriminate|].
      apply IHm. consumed. lia. }
    destruct (expect "[" (skip_ws s)) as [r1|] eqn:E2.
    { destruct (expect "]" (skip_ws r1)); [discriminate|].
      apply IHe. consumed. lia. }
    destruct (expect "034" (skip_ws s)) as [r1|].
    { apply pmap_fuel, parse_chars_fuel. }
    destruct (keyword "true" (skip_ws s)); [discriminate|].
    destruct (keyword "false" (skip_ws s)); [discriminate|].
    destruct (keyword "null" (skip_ws s)); [discriminate|].
    apply pmap_fuel, parse_number_fuel.
  - intros acc s Hn. simpl.
    pose proof (IHv s ltac:(lia)) as Fv.
    destruct (parse_value n s) as [x r1| |] eqn:PV; try congruence.
    apply parse_value_length in PV. pose proof (skip_ws_length r1) as Hr1.
    destruct (expect "," (skip_ws r1)) as [r2|] eqn:E1.
    { apply IHe. consumed. lia. }
    destruct (expect "]" (skip_ws r1)); discriminate.
  - intros acc s Hn. simpl.
    pose proof (skip_ws_length s) as Hs.
    destruct (expect "034" (skip_ws s)) as [r0|] eqn:E0; [|discriminate].
    pose proof (parse_chars_fuel r0) as Fc.
    destruct (parse_chars r0) as [k r1| |] eqn:PC; try congruence.
    pose proof (skip_ws_length r1) as Hr1.
    destruct (expect ":" (skip_ws r1)) as [r2|] eqn:E1; [|discriminate].
    consumed.
    pose proof (IHv r2 ltac:(lia)) as Fv.
    destruct (parse_value n r2) as [x r3| |] eqn:PV; try congruence.
    apply parse_value_length in PV. pose proof (skip_ws_length r3) as Hr3.
    destruct (expect "," (skip_ws r3)) as [r4|] eqn:E2.
    { apply IHm. consumed. lia. }
    destruct (expect "}" (skip_ws r3)); discriminate.
Qed.

(** [JSON.parse] never runs out of fuel: when [parse] gives [None] the
    text is not JSON. *)
Lemma parse_fuel (s : string) : parse_value (fuel_for s) s <> OutOfFuel.
Proof. apply (parse_fuel_enough (fuel_for s)). unfold fuel_for. lia. Qed.

(** ** Facts about values and JSON texts *)

Lemma json_induction (P : json -> Prop) :
  P JNull ->
  (forall b, P (JBool b)) ->
  (forall n, P (JNum n)) ->
  (forall s, P (JStr s)) ->
  (forall xs, Forall P xs -> P (JArr xs)) ->
  (forall props, Forall (fun kv => P (snd kv)) props -> P (JObj props)) ->
  forall j, P j.
Proof.
  intros HNull HBool HNum HStr HArr HObj.
  fix IH 1. intros [ | b | n | s | xs | props].
  - exact HNull.
  - apply HBool.
  - apply HNum.
  - apply HStr.
  - apply HArr. induction xs as [|x xs IHxs]; constructor.
    + apply IH.
    + exact IHxs.
  - apply HObj. induction props as [|[k v] props IHp]; constructor.
    + apply IH.
    + exact IHp.
Qed.

(** Printing what was parsed gives the text back. *)
Lemma stringify_of_json (j : json) : stringify (of_json j) = Some j.
Proof.
  induction j as [ | b | n | s | xs IH | props IH] using json_induction;
    try reflexivity.
  - simpl. f_equal. f_equal.
    induction IH as [|x xs Hx _ IHxs]; simpl; [reflexivity|].
    rewrite Hx, IHxs. reflexivity.
  - simpl. f_equal. f_equal.
    induction IH as [|[k v] props Hx _ IHp]; simpl; [reflexivity|].
    simpl in Hx. rewrite Hx, IHp. reflexivity.
Qed.

Lemma assoc_map {A B : Type} (f : A -> B) (k : string) (l : list (string * A)) :
  assoc k (map (fun kv => (fst kv, f (snd kv))) l) = option_map f (assoc k l).
Proof.
  induction l as [|[k' v] l IH]; simpl; [reflexivity|].
  destruct (k' =? k); [reflexivity|exact IH].
Qed.

Lemma own_of_json (j : json) (k : string) :
  own (of_json j) k = option_map of_json (member j k).
Proof.
  destruct j as [ | b | n | s | xs | props]; simpl; try reflexivity.
  - destruct (k =? "length"); [reflexivity|].
    destruct (index_of_key k) as [i|]; [|reflexivity].
    destruct (String.get i s); reflexivity.
  - destruct (k =? "length"); [now rewrite length_map|].
    destruct (index_of_key k) as [i|]; [|reflexivity].
    apply nth_error_map.
  - apply assoc_map.
Qed.

Lemma lookup_of_json (j : json) (k : string) :
  plain k -> lookup (of_json j) k = val (member j k).
Proof.
  unfold lookup, plain. intros Hk. rewrite own_of_json.
  destruct (member j k); simpl; [reflexivity|exact Hk].
Qed.

Lemma opt_val (o : option json) (k : string) :
  plain k -> opt (val o) k = val (chain o k).
Proof.
  intros Hk. destruct o as [j|]; [|reflexivity].
  unfold opt. simpl val.
  destruct (nullish (of_json j)) eqn:N.
  - destruct j; try discriminate N. reflexivity.
  - rewrite (lookup_of_json j k Hk).
    destruct j; reflexivity.
Qed.

Lemma nullish_of_json (j : json) : nullish (of_json j) = true <-> j = JNull.
Proof. destruct j; simpl; split; congruence. Qed.

Lemma get_of_json (j : json) (k : string) :
  j <> JNull -> plain k -> get (of_json j) k = Ok (val (member j k)).
Proof.
  intros Hj Hk. unfold get.
  destruct (nullish (of_json j)) eqn:N.
  - apply nullish_of_json in N. contradiction.
  - now rewrite lookup_of_json.
Qed.

(** ** What one line does *)

Lemma or_val (o : option json) (d : json) :
  js_or (val o) (of_json d) = of_json (or_else o d).
Proof.
  unfold js_or, or_else. destruct o as [j|]; simpl; [|reflexivity].
  destruct (truthy (of_json j)); reflexivity.
Qed.

Lemma role_field_truthy (o : option json) :
  truthy (val o) = true ->
  exists r, o = Some r /\ role_field o = [("role", r)].
Proof.
  destruct o as [r|]; simpl; [|discriminate].
  intros ->. eauto.
Qed.

Lemma role_field_falsy (o : option json) :
  truthy (val o) = false -> role_field o = [].
Proof.
  destruct o as [r|]; simpl; [|reflexivity]. intros ->. reflexivity.
Qed.

Lemma on_line_run (clock : nat -> Z) (model : value) (line : string)
  (w : world) :
  on_line clock model line w =
    (Ok tt,
     if negb (startsWith line "data: ") then w
     else if includes line "[DONE]" then wrote Done w
     else match JSON.parse (slice 6 line) with
          | None => complained "Stream parse error:" syntax_error w
          | Some JNull =>
              complained "Stream parse error:" (null_error "choices")
                (later w)
          | Some j =>
              wrote (Data (Some (StreamChunk model (clock (ticks w))
                                   (clock (S (ticks w))) j)))
                (later w)
          end).
Proof.
  unfold on_line.
  destruct (startsWith line "data: "); [|reflexivity].
  destruct (includes line "[DONE]"); [reflexivity|].
  cbn [negb].
  unfold try_catch, bind at 1, JSON_parse.
  destruct (JSON.parse (slice 6 line)) as [j|]; [|reflexivity].
  destruct (nullish (of_json j)) eqn:N.
  { apply nullish_of_json in N. subst j. reflexivity. }
  assert (j <> JNull) as Hj by (intros ->; discriminate N).
  transitivity
    (Ok tt,
     wrote (Data (Some (StreamChunk model (clock (ticks w))
                          (clock (S (ticks w))) j))) (later w));
    [|destruct j; try reflexivity; contradiction].
  unfold ret at 1. unfold openaiChunk, bind, Date_now, lift.
  cbn [ticks statusCode headers sent written ended console posted].
  rewrite (get_of_json j "choices" Hj eq_refl).
  unfold ret.
  rewrite !opt_val by reflexivity.
  change (VStr "") with (of_json (JStr "")).
  change VNull with (of_json JNull).
  rewrite !or_val.
  unfold StreamChunk.
  set (choice := chain (member j "choices") "0").
  set (role := chain (chain choice "delta") "role").
  generalize (or_else (chain (chain choice "delta") "content") (JStr "")).
  generalize (or_else (chain choice "finish_reason") JNull).
  intros finish content. clearbody role. clear choice.
  unfold res_write, wrote, later. cbn.
  destruct (truthy (val role)) eqn:T; cbn [negb].
  - destruct (role_field_truthy role T) as (r & -> & ->). cbn.
    rewrite !stringify_of_json.
    unfold model_field. destruct (stringify model); reflexivity.
  - rewrite (role_field_falsy role T). cbn.
    rewrite !stringify_of_json.
    unfold model_field. destruct (stringify model); reflexivity.
Qed.

(** ** Lines across chunks *)

Lemma split_not_nil (c : ascii) (s : string) : split c s <> [].
Proof.
  destruct s as [|a r]; simpl; [discriminate|].
  destruct (a =? c)%char; [discriminate|].
  destruct (split c r); discriminate.
Qed.

Lemma pop_snoc (l : list string) (x : string) : pop (l ++ [x]) = (Some x, l).
Proof.
  induction l as [|y l IH]; [reflexivity|].
  change ((y :: l) ++ [x]) with (y :: (l ++ [x])).
  cbn [pop]. rewrite IH.
  destruct (l ++ [x]) eqn:E; [|reflexivity].
  destruct l; discriminate.
Qed.

Lemma split_snoc (c : ascii) (s : string) :
  exists front last, split c s = front ++ [last].
Proof.
  destruct (exists_last (split_not_nil c s)) as (front & last & E).
  eauto.
Qed.

(** Splitting a text that arrives in two parts. *)
Lemma split_app (c : ascii) (a b : string) (front : list string)
  (last : string) :
  split c a = front ++ [last] ->
  split c (a ++ b) = front ++ split c (last ++ b).
Proof.
  revert front last. induction a as [|x a IH]; intros front last.
  - simpl. destruct front as [|y front]; simpl.
    + intros H; injection H as <-. reflexivity.
    + intros H; injection H as _ H. destruct front; discriminate.
  - cbn [split append].
    destruct (x =? c)%char eqn:X.
    + destruct front as [|y front]; cbn [app].
      * intros H; injection H as _ H. exfalso. exact (split_not_nil c a H).
      * intros H; injection H as <- H.
        rewrite (IH front last H). reflexivity.
    + destruct (split_snoc c a) as (f & l & E). rewrite E.
      rewrite (IH f l E).
      destruct f as [|h f]; cbn [app].
      * destruct front as [|y front]; cbn [app].
        -- intros H; injection H as <-. cbn [split append]. rewrite X.
           reflexivity.
        -- intros H; injection H as _ H. destruct front; discriminate.
      * destruct front as [|y front]; cbn [app].
        -- intros H; injection H as _ H. destruct f; discriminate.
        -- intros H; injection H as <- H.
           apply app_inj_tail in H as [-> ->]. reflexivity.
Qed.

Lemma carry_snoc (s : string) (front : list string) (last : string) :
  split newline s = front ++ [last] -> carry s = last /\ lines_of s = front.
Proof.
  intros E. unfold carry, lines_of. rewrite E, pop_snoc. simpl. split.
  - destruct (last =? "") eqn:L; [|reflexivity].
    apply String.eqb_eq in L. congruence.
  - reflexivity.
Qed.

Lemma lines_of_app (a b : string) :
  lines_of (a ++ b) = lines_of a ++ lines_of (carry a ++ b).
Proof.
  destruct (split_snoc newline a) as (f & l & E).
  destruct (carry_snoc a f l E) as [-> ->].
  destruct (split_snoc newline (l ++ b)) as (f' & l' & E').
  destruct (carry_snoc _ f' l' E') as [_ ->].
  pose proof (split_app newline a b f l E) as H. rewrite E' in H.
  rewrite app_assoc in H.
  destruct (carry_snoc _ _ _ H) as [_ ->]. reflexivity.
Qed.

Lemma carry_app (a b : string) : carry (a ++ b) = carry (carry a ++ b).
Proof.
  destruct (split_snoc newline a) as (f & l & E).
  destruct (carry_snoc a f l E) as [-> _].
  destruct (split_snoc newline (l ++ b)) as (f' & l' & E').
  destruct (carry_snoc _ f' l' E') as [-> _].
  pose proof (split_app newline a b f l E) as H. rewrite E' in H.
  rewrite app_assoc in H.
  destruct (carry_snoc _ _ _ H) as [-> _]. reflexivity.
Qed.

(** ** The listeners *)

Section Listeners.

Variable clock : nat -> Z.
Variable model : value.

Lemma forEach_on_line (lines : list string) (w : world) :
  forEach lines (on_line clock model) w
  = (Ok tt, after_lines clock model lines w).
Proof.
  revert w. induction lines as [|l lines IH]; intros w; [reflexivity|].
  cbn [forEach]. unfold bind. rewrite on_line_run. cbn [after_lines fold_left].
  rewrite on_line_run. cbn [snd]. apply IH.
Qed.

Lemma after_lines_app (l1 l2 : list string) (w : world) :
  after_lines clock model (l1 ++ l2) w
  = after_lines clock model l2 (after_lines clock model l1 w).
Proof. apply fold_left_app. Qed.

Lemma on_data_run (buffer chunk : string)
  (w : world) :
  on_data clock model buffer chunk w
  = (Ok (carry (buffer ++ Buffer.toString chunk)),
     after_lines clock model (lines_of (buffer ++ Buffer.toString chunk)) w).
Proof.
  unfold on_data, carry, lines_of.
  destruct (pop (split newline (buffer ++ Buffer.toString chunk)))
    as [last lines].
  unfold bind. rewrite forEach_on_line. reflexivity.
Qed.

Lemma append_assoc (a b c : string) : ((a ++ b) ++ c = a ++ (b ++ c))%string.
Proof. induction a as [|x a IH]; simpl; [reflexivity|]. now rewrite IH. Qed.

Lemma append_empty (a : string) : (a ++ "")%string = a.
Proof. induction a as [|x a IH]; simpl; [reflexivity|]. now rewrite IH. Qed.

(** Feeding the chunks one by one is feeding the lines of their text,
    once each and in order. *)
Lemma deliver_chunks (chunks : list string) (rest : list event) :
  forall (seen : string) (w : world),
    deliver clock model (carry seen) (map OnData chunks ++ rest)
      (after_lines clock model (lines_of seen) w)
    = deliver clock model (carry (seen ++ joined chunks)) rest
        (after_lines clock model (lines_of (seen ++ joined chunks)) w).
Proof.
  induction chunks as [|c chunks IH]; intros seen w.
  - cbn [joined fold_right map app]. rewrite append_empty. reflexivity.
  - cbn [map app deliver]. unfold bind. rewrite on_data_run.
    rewrite <- carry_app, <- after_lines_app, <- lines_of_app.
    rewrite IH. cbn [joined fold_right]. rewrite append_assoc. reflexivity.
Qed.

Lemma deliver_chunks_fresh (chunks : list string) (rest : list event) (w : world) :
  deliver clock model "" (map OnData chunks ++ rest) w
  = deliver clock model (carry (joined chunks)) rest
      (after_lines clock model (lines_of (joined chunks)) w).
Proof. exact (deliver_chunks chunks rest "" w). Qed.

(** ** Counting the sentinels *)

Lemma sentinels_app (a b : list frame) :
  sentinels (a ++ b) = sentinels a + sentinels b.
Proof. unfold sentinels. now rewrite filter_app, length_app. Qed.

Lemma on_line_written (line : string)
  (w : world) :
  exists new,
    written (snd (on_line clock model line w)) = written w ++ new /\
    sentinels new = (if is_sentinel line then 1 else 0) /\
    Forall (fun f => f = Done \/
                     exists j, JSON.parse (slice 6 line) = Some j /\
                       f = Data (Some (StreamChunk model (clock (ticks w))
                                         (clock (S (ticks w))) j))) new.
Proof.
  rewrite on_line_run. cbn [snd]. unfold is_sentinel.
  destruct (startsWith line "data: "); cbn [negb andb].
  2:{ exists []. rewrite app_nil_r. repeat split; constructor. }
  destruct (includes line "[DONE]").
  { exists [Done]. repeat split. constructor; [now left|constructor]. }
  destruct (JSON.parse (slice 6 line)) as [j|].
  2:{ exists []. rewrite app_nil_r. repeat split; constructor. }
  destruct j;
    try (eexists [_]; repeat split;
         constructor; [right; eexists; split; reflexivity|constructor]).
  exists []. cbn. rewrite app_nil_r. repeat split; constructor.
Qed.

Lemma after_lines_sentinels (lines : list string) :
  forall w,
    sentinels (written (after_lines clock model lines w))
    = sentinels (written w) + List.length (filter is_sentinel lines).
Proof.
  induction lines as [|l lines IH]; intros w; cbn [after_lines fold_left].
  - simpl. lia.
  - change (fold_left _ lines ?x) with (after_lines clock model lines x).
    rewrite IH.
    destruct (on_line_written l w) as (new & -> & Hn & _).
    rewrite sentinels_app, Hn. cbn [filter].
    destruct (is_sentinel l); simpl; lia.
Qed.

(** ** Counting the records *)

Lemma records_app (a b : list frame) :
  records (a ++ b) = records a + records b.
Proof. unfold records. now rewrite filter_app, length_app. Qed.

Lemma wrote_records (f : frame) (w : world) :
  records (written (wrote f w))
  = records (written w) + match f with Data _ => 1 | Done => 0 end.
Proof.
  unfold wrote, res_write. cbn [snd written]. rewrite records_app.
  destruct f; reflexivity.
Qed.

Lemma on_line_records (line : string) (w : world) :
  records (written (snd (on_line clock model line w)))
  = records (written w) + (if emits line then 1 else 0).
Proof.
  rewrite on_line_run. cbn [snd]. unfold emits.
  destruct (startsWith line "data: "); cbn [negb andb]; [|lia].
  destruct (includes line "[DONE]"); cbn [negb andb].
  { rewrite wrote_records. lia. }
  destruct (JSON.parse (slice 6 line)) as [[]|];
    rewrite ?wrote_records; cbn [complained console_error later snd written];
    lia.
Qed.

Lemma after_lines_records (lines : list string) :
  forall w,
    records (written (after_lines clock model lines w))
    = records (written w) + List.length (filter emits lines).
Proof.
  induction lines as [|l lines IH]; intros w; cbn [after_lines fold_left].
  - simpl. lia.
  - change (fold_left _ lines ?x) with (after_lines clock model lines x).
    rewrite IH, on_line_records. cbn [filter].
    destruct (emits l); simpl; lia.
Qed.

End Listeners.

(** ** Decoding a chunk *)

Lemma has_append (c : ascii) (a b : string) :
  has c (a ++ b) = has c a || has c b.
Proof.
  induction a as [|x a IH]; [reflexivity|].
  cbn [append has]. now rewrite IH, orb_assoc.
Qed.

Lemma decode_idle (st : Buffer.sequence) (s : string) :
  Buffer.needed st = 0%nat -> Buffer.decode st s = Buffer.decode Buffer.idle s.
Proof.
  intros H. destruct s as [|c r]; cbn [Buffer.decode]; unfold Buffer.step;
    rewrite H; reflexivity.
Qed.

(** Bytes that end between two characters: what follows is decoded as if
    it stood alone. *)
Lemma decode_app (a b : string) :
  forall st,
    Buffer.needed (Buffer.after st a) = 0%nat ->
    Buffer.decode st (a ++ b)
    = (Buffer.decode st a ++ Buffer.decode Buffer.idle b)%string.
Proof.
  induction a as [|c a IH]; intros st H; cbn [Buffer.after] in H.
  - cbn [append Buffer.decode]. rewrite H. now apply decode_idle.
  - cbn [append Buffer.decode].
    destruct (Buffer.step st c) as [out st']. cbn [snd] in H.
    rewrite (IH st' H). now rewrite append_assoc.
Qed.

Lemma toString_app (a b : string) :
  Buffer.needed (Buffer.after Buffer.idle a) = 0%nat ->
  Buffer.toString (a ++ b) = (Buffer.toString a ++ Buffer.toString b)%string.
Proof. apply decode_app. Qed.

Lemma ascii_text_app (a b : string) :
  ascii_text (a ++ b) = ascii_text a && ascii_text b.
Proof.
  unfold ascii_text. induction a as [|c a IH]; [reflexivity|].
  cbn [append list_ascii_of_string forallb]. now rewrite IH, andb_assoc.
Qed.

(** ASCII text is its own decoding, and leaves no sequence open. *)
Lemma toString_ascii (s : string) :
  ascii_text s = true ->
  Buffer.toString s = s /\ Buffer.after Buffer.idle s = Buffer.idle.
Proof.
  unfold Buffer.toString, ascii_text.
  induction s as [|c r IH]; [now split|].
  cbn [list_ascii_of_string forallb]. intros H.
  apply andb_true_iff in H as [Hc Hr].
  cbn [Buffer.decode Buffer.after]. unfold Buffer.step, Buffer.start.
  cbn [Buffer.needed Buffer.idle]. rewrite Hc. cbn [snd append].
  destruct (IH Hr) as [-> ->]. now split.
Qed.

Lemma has_replacement (c : ascii) :
  nat_of_ascii c < 128 -> has c Buffer.replacement = false.
Proof.
  intros H. unfold Buffer.replacement. cbn [has].
  repeat match goal with
         | |- context [(?x =? c)%char] =>
             destruct (Ascii.eqb_spec x c) as [<-|_];
             [cbn in H; lia|]
         end.
  reflexivity.
Qed.

Lemma has_start (c x : ascii) :
  nat_of_ascii c < 128 ->
  has c (fst (Buffer.start x)) = (x =? c)%char /\
  has c (Buffer.read (snd (Buffer.start x))) = false /\
  128 <= Buffer.lower (snd (Buffer.start x)).
Proof.
  intros H. unfold Buffer.start.
  destruct (nat_of_ascii x <? 128)%nat eqn:X.
  - cbn. rewrite orb_false_r. repeat split. lia.
  - apply Nat.ltb_ge in X.
    assert ((x =? c)%char = false) as E.
    { destruct (Ascii.eqb_spec x c) as [->|_]; [lia|reflexivity]. }
    rewrite E.
    destruct (Buffer.lead (nat_of_ascii x)) as [[[k lo] hi]|] eqn:L.
    + cbn. rewrite E. repeat split.
      unfold Buffer.lead in L.
      repeat match type of L with
             | (if ?b then _ else _) = _ =>
                 destruct b; [injection L as <- <- <-; lia|]
             end.
      discriminate L.
    + cbn [fst snd Buffer.idle Buffer.read Buffer.lower has].
      rewrite has_replacement by assumption. repeat split. lia.
Qed.

(** Decoding neither adds nor removes an ASCII character. *)
Lemma has_decode (c : ascii) (s : string) :
  nat_of_ascii c < 128 ->
  forall st,
    has c (Buffer.read st) = false -> 128 <= Buffer.lower st ->
    has c (Buffer.decode st s) = has c s.
Proof.
  intros H. induction s as [|x r IH]; intros st Hr Hl.
  - cbn [Buffer.decode]. destruct (Buffer.needed st); [reflexivity|].
    now apply has_replacement.
  - cbn [Buffer.decode has]. unfold Buffer.step.
    destruct (has_start c x H) as (S1 & S2 & S3).
    destruct (Buffer.needed st) as [|k].
    + destruct (Buffer.start x) as [out st']. cbn [fst snd] in *.
      rewrite has_append, S1, (IH st' S2 S3). reflexivity.
    + destruct ((Buffer.lower st <=? nat_of_ascii x)%nat
                && (nat_of_ascii x <=? Buffer.upper st)%nat) eqn:B.
      * apply andb_true_iff in B as [B _]. apply Nat.leb_le in B.
        assert ((x =? c)%char = false) as E.
        { destruct (Ascii.eqb_spec x c) as [->|_]; [lia|reflexivity]. }
        rewrite E. cbn [orb].
        destruct k as [|k].
        -- rewrite has_append, has_append, Hr. cbn [has]. rewrite E.
           cbn [orb]. apply IH; [reflexivity|cbn; lia].
        -- cbn [append]. apply IH; [|cbn; lia].
           cbn [Buffer.read]. rewrite has_append, Hr. cbn. now rewrite E.
      * destruct (Buffer.start x) as [out st']. cbn [fst snd] in *.
        rewrite !has_append, has_replacement, S1, (IH st' S2 S3) by assumption.
        reflexivity.
Qed.

Lemma has_toString (c : ascii) (chunk : string) :
  nat_of_ascii c < 128 -> has c (Buffer.toString chunk) = has c chunk.
Proof.
  intros H. apply has_decode; [assumption|reflexivity|cbn; lia].
Qed.

(** ** Once the stream is over *)

Section Closing.

Variable clock : nat -> Z.
Variable model : value.

(** Once only ['end'] and ['error'] are left, the buffer plays no part. *)
Lemma deliver_closing (rest : list event) :
  Forall (fun ev => terminates ev = true) rest ->
  forall b1 b2 w,
    deliver clock model b1 rest w = deliver clock model b2 rest w.
Proof.
  induction 1 as [|ev rest Hev _ IH]; intros b1 b2 w; [reflexivity|].
  destruct ev as [chunk| |err]; [discriminate Hev| |]; cbn [deliver];
    unfold bind;
    match goal with
    | |- context [?c w] =>
        match c with
        | on_end => destruct (on_end w) as [[[]|e] w1]
        | on_error _ => destruct (c w) as [[[]|e] w1]
        end
    end; try reflexivity; apply IH.
Qed.

Lemma deliver_closing_records (rest : list event) :
  Forall (fun ev => terminates ev = true) rest ->
  forall b w,
    records (written (snd (deliver clock model b rest w)))
    = records (written w).
Proof.
  induction 1 as [|ev rest Hev _ IH]; intros b w; [reflexivity|].
  destruct ev as [chunk| |err]; [discriminate Hev| |]; cbn [deliver];
    unfold bind; cbn -[records deliver]; rewrite IH; cbn -[records];
    rewrite ?records_app; cbn; lia.
Qed.

End Closing.

(** ** The handler, step by step *)

Lemma or_val_val (a b : option json) :
  js_or (val a) (val b) = val (first_truthy a b).
Proof.
  unfold js_or, first_truthy. destruct a as [j|]; simpl; [|reflexivity].
  destruct (truthy (of_json j)); reflexivity.
Qed.

Lemma destructure_of_json (j : json) (k : string) (w : world) :
  j <> JNull -> plain k ->
  destructure (of_json j) k w = (Ok (val (member j k)), w).
Proof.
  intros Hj Hk. unfold destructure.
  destruct (nullish (of_json j)) eqn:N.
  - apply nullish_of_json in N. contradiction.
  - unfold ret. now rewrite lookup_of_json.
Qed.

Lemma openaiResponse_run (clock : nat -> Z) (model : value) (d : json)
  (w : world) :
  d <> JNull ->
  exists v,
    openaiResponse clock model (of_json d) w = (Ok v, later w) /\
    stringify v
    = Some (CompletionEnvelope model (clock (ticks w)) (clock (S (ticks w))) d).
Proof.
  intros Hd. unfold openaiResponse, bind, Date_now, lift.
  cbn [ticks statusCode headers sent written ended console posted].
  rewrite (get_of_json d "choices" Hd eq_refl).
  rewrite (get_of_json d "usage" Hd eq_refl).
  unfold ret. eexists; split; [reflexivity|].
  rewrite !opt_val by reflexivity.
  change (VStr "") with (of_json (JStr "")).
  change (VStr "stop") with (of_json (JStr "stop")).
  change (VNum (int 0)) with (of_json (JNum (int 0))) at 2 3 4.
  rewrite !or_val.
  unfold CompletionEnvelope.
  generalize (or_else (chain (chain (chain (member d "choices") "0") "message")
                         "content") (JStr "")).
  generalize (or_else (chain (chain (member d "choices") "0") "finish_reason")
                (JStr "stop")).
  generalize (or_else (chain (member d "usage") "prompt_tokens")
                (JNum (int 0))).
  generalize (or_else (chain (member d "usage") "completion_tokens")
                (JNum (int 0))).
  generalize (or_else (chain (member d "usage") "total_tokens")
                (JNum (int 0))).
  intros t c p f x. cbn.
  rewrite !stringify_of_json.
  unfold model_field. destruct (stringify model); reflexivity.
Qed.

Lemma recover_run (e : json) (w : world) :
  e <> JNull ->
  recover (of_json e) w = (Ok None, recovered e w).
Proof.
  intros He. unfold recover, bind, lift.
  rewrite (get_of_json e "response" He eq_refl).
  rewrite (get_of_json e "message" He eq_refl).
  rewrite !opt_val by reflexivity.
  rewrite !or_val_val.
  change (VNum (int 500)) with (of_json (JNum (int 500))).
  change (VStr "Internal server error")
    with (of_json (JStr "Internal server error")).
  rewrite !or_val.
  unfold recovered, answered, with_status, complained, ErrorEnvelope.
  cbn. rewrite !stringify_of_json. reflexivity.
Qed.

Lemma model_check (body : json) :
  match requested_model body with
  | Some s =>
      val (member body "model") = VStr s /\
      negb (truthy (val (member body "model")))
      || negb (typeof (val (member body "model")) =? "string") = false
  | None =>
      negb (truthy (val (member body "model")))
      || negb (typeof (val (member body "model")) =? "string") = true
  end.
Proof.
  unfold requested_model.
  destruct (member body "model") as [[ | b | n | s | xs | props]|];
    try reflexivity.
  - simpl. now destruct b.
  - simpl. now destruct (mant n =? 0)%Z.
  - simpl. destruct (s =? ""); simpl; auto.
Qed.

Lemma messages_check (body : json) :
  let messages := val (member body "messages") in
  match requested_messages body with
  | Some ms =>
      messages = VArr (map of_json ms) /\
      negb (truthy messages) || negb (isArray messages)
      || match messages with
         | VArr xs => (List.length xs =? 0)%nat
         | _ => false
         end = false
  | None =>
      negb (truthy messages) || negb (isArray messages)
      || match messages with
         | VArr xs => (List.length xs =? 0)%nat
         | _ => false
         end = true
  end.
Proof.
  unfold requested_messages.
  destruct (member body "messages") as [[ | b | n | s | [|m ms] | props]|];
    try reflexivity; simpl; auto.
  - now destruct b.
  - now destruct (mant n =? 0)%Z.
  - now destruct (s =? "").
Qed.

Lemma attempt_run (clock : nat -> Z) (up : upstream) (body : json)
  (w : world) :
  body <> JNull ->
  attempt clock up body w =
    match requested_model body with
    | None =>
        (Ok None,
         answered (ErrorEnvelope (JStr "you must provide a model parameter")
                     (JStr "model") JNull)
           (with_status (VNum (int 400)) w))
    | Some s =>
        match requested_messages body with
        | None =>
            (Ok None,
             answered
               (ErrorEnvelope
                  (JStr "messages is required and must be a non-empty array")
                  (JStr "messages") JNull)
               (with_status (VNum (int 400)) w))
        | Some ms =>
            let w1 := called (UpstreamRequest body s ms)
                        (requested_stream body) w in
            match rejects up with
            | Some e => (Throw e, w1)
            | None =>
                if requested_stream body
                then (Ok (Some (VStr s)), streaming w1)
                else
                  match data up with
                  | JNull => (Throw (null_error "choices"), later w1)
                  | d =>
                      (Ok None,
                       answered
                         (CompletionEnvelope (VStr s) (clock (ticks w))
                            (clock (S (ticks w))) d)
                         (later w1))
                  end
            end
        end
    end.
Proof.
  intros Hb. unfold attempt, bind at 1 2 3 4 5.
  rewrite !(destructure_of_json body) by (assumption || reflexivity).
  pose proof (model_check body) as Hm.
  destruct (requested_model body) as [s|].
  2:{ rewrite Hm. reflexivity. }
  destruct Hm as [Em ->]. rewrite Em.
  pose proof (messages_check body) as Hs. cbv zeta in Hs.
  destruct (requested_messages body) as [ms|].
  2:{ rewrite Hs. reflexivity. }
  destruct Hs as [Es ->]. rewrite Es.
  unfold bind at 1, axios_post.
  assert (stringify
            (VObj
               [("model", nimModel (VStr s)); ("messages", VArr (map of_json ms));
                ("temperature",
                 match val (member body "temperature") with
                 | VUndefined => VNum {| mant := 7; expo := -1 |}
                 | _ => val (member body "temperature")
                 end);
                ("max_tokens",
                 js_or (val (member body "max_tokens")) (VNum (int 2048)));
                ("stream", js_or (val (member body "stream")) (VBool false))])
          = Some (UpstreamRequest body s ms)) as ->.
  { change (VNum (int 2048)) with (of_json (JNum (int 2048))).
    change (VBool false) with (of_json (JBool false)).
    rewrite !or_val.
    assert (match val (member body "temperature") with
            | VUndefined => VNum {| mant := 7; expo := -1 |}
            | _ => val (member body "temperature")
            end
            = of_json match member body "temperature" with
                      | Some t => t
                      | None => JNum (Num 7 (-1))
                      end) as ->.
    { destruct (member body "temperature") as [[]|]; reflexivity. }
    change (VArr (map of_json ms)) with (of_json (JArr ms)).
    unfold UpstreamRequest.
    generalize (or_else (member body "max_tokens") (JNum (int 2048))).
    generalize (or_else (member body "stream") (JBool false)).
    generalize (match member body "temperature" with
                | Some t => t
                | None => JNum (Num 7 (-1))
                end).
    generalize (JArr ms). intros a b c d.
    cbn [stringify]. rewrite !stringify_of_json.
    unfold model_field. destruct (stringify (nimModel (VStr s))); reflexivity. }
  fold (requested_stream body).
  destruct (rejects up) as [e|]; [reflexivity|].
  destruct (requested_stream body).
  { unfold bind, res_setHeader, ret, streaming, called. cbn.
    rewrite <- !app_assoc. reflexivity. }
  unfold bind at 1.
  destruct (data up) eqn:D;
    try (match goal with
         | |- context [openaiResponse _ _ (of_json ?d)] =>
             destruct (openaiResponse_run clock (VStr s) d
                         (called (UpstreamRequest body s ms) false w)
                         ltac:(discriminate)) as (v & Hv & Sv);
             unfold called in Hv at 1;
             rewrite Hv; unfold bind, res_json, ret; cbn [ticks called] in Sv |- *;
             rewrite Sv; reflexivity
         end).
  reflexivity.
Qed.

(** ** The handler as a whole *)

Lemma requested_model_not_null (body : json) (s : string) :
  requested_model body = Some s -> body <> JNull.
Proof. intros H ->. discriminate H. Qed.

Lemma serve_unfold (clock : nat -> Z) (up : upstream) (body : json) :
  serve clock up body
  = snd (match try_catch (attempt clock up body) recover fresh with
         | (Ok (Some model), w) => deliver clock model "" (events up) w
         | (Ok None, w) => (Ok tt, w)
         | (Throw e, w) => (Throw e, w)
         end).
Proof.
  unfold serve, chat_completions, bind.
  destruct (try_catch (attempt clock up body) recover fresh) as [[[m|]|e] w];
    reflexivity.
Qed.

(** C7.  A request whose [model] is absent or is not a non-empty string is
    answered with status 400 and one error envelope of type
    [invalid_request_error] with [param = "model"] and [code = null], and
    nothing is posted to the upstream.  Otherwise a request whose [messages]
    is absent, is not a sequence or is empty is answered the same way with
    [param = "messages"].  The model is checked first.  The body is the
    object or array the JSON middleware hands over, so it is not [null]. *)
Theorem validation_first_failure_wins (clock : nat -> Z) (up : upstream)
  (body : json) :
  body <> JNull ->
  (requested_model body = None ->
   refused "model" "you must provide a model parameter"
     (serve clock up body)) /\
  (requested_model body <> None -> requested_messages body = None ->
   refused "messages" "messages is required and must be a non-empty array"
     (serve clock up body)).
Proof.
  intros Hb. rewrite serve_unfold. unfold try_catch.
  rewrite (attempt_run clock up body fresh Hb). split.
  - intros ->. repeat split.
  - intros Hm Hs. destruct (requested_model body); [|congruence].
    rewrite Hs. repeat split.
Qed.

Lemma validation_first_failure_wins_witness :
  refused "model" "you must provide a model parameter"
    (serve sample_clock (Upstream None JNull []) (JObj [])) /\
  refused "messages" "messages is required and must be a non-empty array"
    (serve sample_clock (Upstream None JNull [])
       (JObj [ ("model", JStr "gpt-4"); ("messages", JArr []) ])).
Proof.
  split.
  - apply (validation_first_failure_wins sample_clock (Upstream None JNull [])
             (JObj [])); [discriminate|reflexivity].
  - apply (validation_first_failure_wins sample_clock (Upstream None JNull [])
             (JObj [ ("model", JStr "gpt-4"); ("messages", JArr []) ]));
      [discriminate|discriminate|reflexivity].
Defined.

(** C9.  When the dispatch of a non-streaming request fails, the client
    gets one error envelope.  Its HTTP status is the upstream's when the
    upstream answered and 500 otherwise; [error.message] is the upstream's
    own message when its body has one, and otherwise the generic message
    (the text of the failure, or ["Internal server error"] when it has
    none); [error.type] is [invalid_request_error] and [error.code] is that
    same status. *)
Theorem upstream_failure_envelope (clock : nat -> Z) (up : upstream)
  (body : json) (s : string) (ms : list json) (e : AxiosError) :
  requested_model body = Some s ->
  requested_messages body = Some ms ->
  requested_stream body = false ->
  rejects up = Some (of_json (thrown e)) ->
  statusCode (serve clock up body) = VNum (int (status_of e)) /\
  sent (serve clock up body)
  = [ Some (JObj [ ("error", JObj [
        ("message", match upstream_message e with
                    | Some m => m
                    | None => JStr (generic_message e)
                    end);
        ("type", JStr "invalid_request_error");
        ("param", JNull);
        ("code", JNum (int (status_of e))) ]) ]) ] /\
  written (serve clock up body) = [].
Proof.
  intros Hm Hs Hst Hr. rewrite serve_unfold. unfold try_catch.
  rewrite (attempt_run clock up body fresh (requested_model_not_null _ _ Hm)).
  rewrite Hm, Hs, Hr. cbv beta iota zeta.
  rewrite recover_run by (destruct e; discriminate).
  cbn [snd].
  assert (or_else (chain (member (thrown e) "response") "status")
            (JNum (int 500)) = JNum (int (status_of e))) as Est.
  { unfold thrown, status_of. destruct (failure_response e) as [[st d]|];
      [|reflexivity].
    cbn. destruct (st =? 0)%Z; reflexivity. }
  assert (or_else
            (first_truthy
               (chain (chain (chain (member (thrown e) "response") "data")
                         "error") "message")
               (member (thrown e) "message"))
            (JStr "Internal server error")
          = match upstream_message e with
            | Some m => m
            | None => JStr (generic_message e)
            end) as Emsg.
  { unfold thrown, upstream_message, generic_message.
    destruct (failure_response e) as [[st d]|].
    - change (chain (member (JObj (("message", JStr (failure_message e))
                :: [("response", JObj [("status", JNum (int st)); ("data", d)])]))
                "response") "data") with (Some d).
      destruct (chain (chain (Some d) "error") "message") as [m|];
        cbn [first_truthy].
      + destruct (truthy (of_json m)) eqn:T.
        * unfold or_else. now rewrite T.
        * cbn. destruct (failure_message e =? ""); reflexivity.
      + cbn. destruct (failure_message e =? ""); reflexivity.
    - cbn. destruct (failure_message e =? ""); reflexivity. }
  unfold recovered. rewrite Est, Emsg. repeat split.
Qed.

Lemma upstream_failure_envelope_witness :
  statusCode (serve sample_clock sample_rejection
                (sample_request "gpt-4" false))
  = VNum (int 429) /\
  sent (serve sample_clock sample_rejection (sample_request "gpt-4" false))
  = [ Some (JObj [ ("error", JObj [
        ("message", JStr "rate limited");
        ("type", JStr "invalid_request_error");
        ("param", JNull);
        ("code", JNum (int 429)) ]) ]) ] /\
  written (serve sample_clock sample_rejection
             (sample_request "gpt-4" false)) = [].
Proof.
  exact (upstream_failure_envelope sample_clock sample_rejection
           (sample_request "gpt-4" false) "gpt-4" sample_messages
           sample_failure eq_refl eq_refl eq_refl eq_refl).
Defined.

(** *** The non-streaming answer *)

Lemma serve_answer (clock : nat -> Z) (up : upstream) (body : json)
  (s : string) (ms : list json) (props : list (string * json)) :
  requested_model body = Some s ->
  requested_messages body = Some ms ->
  requested_stream body = false ->
  rejects up = None ->
  data up = JObj props ->
  serve clock up body
  = answered (CompletionEnvelope (VStr s) (clock 0) (clock 1) (JObj props))
      (later (called (UpstreamRequest body s ms) false fresh)).
Proof.
  intros Hm Hs Hst Hr Hd. rewrite serve_unfold. unfold try_catch.
  rewrite (attempt_run clock up body fresh (requested_model_not_null _ _ Hm)).
  rewrite Hm, Hs, Hr, Hst, Hd. reflexivity.
Qed.

Lemma serve_stream (clock : nat -> Z) (up : upstream) (body : json)
  (s : string) (ms : list json) :
  requested_model body = Some s ->
  requested_messages body = Some ms ->
  requested_stream body = true ->
  rejects up = None ->
  serve clock up body
  = snd (deliver clock (VStr s) "" (events up)
           (streaming (called (UpstreamRequest body s ms) true fresh))).
Proof.
  intros Hm Hs Hst Hr. rewrite serve_unfold. unfold try_catch.
  rewrite (attempt_run clock up body fresh (requested_model_not_null _ _ Hm)).
  rewrite Hm, Hs, Hr, Hst. reflexivity.
Qed.

Lemma serve_answer_any (clock : nat -> Z) (up : upstream) (body : json)
  (s : string) (ms : list json) :
  requested_model body = Some s ->
  requested_messages body = Some ms ->
  requested_stream body = false ->
  rejects up = None ->
  data up <> JNull ->
  serve clock up body
  = answered (CompletionEnvelope (VStr s) (clock 0) (clock 1) (data up))
      (later (called (UpstreamRequest body s ms) false fresh)).
Proof.
  intros Hm Hs Hst Hr Hd. rewrite serve_unfold. unfold try_catch.
  rewrite (attempt_run clock up body fresh (requested_model_not_null _ _ Hm)).
  rewrite Hm, Hs, Hr, Hst. destruct (data up); try reflexivity.
  contradiction.
Qed.

(** The records of a stream that was opened. *)
Lemma serve_stream_records (clock : nat -> Z) (up : upstream) (body : json)
  (s : string) (ms : list json) (chunks : list string) (rest : list event) :
  requested_model body = Some s ->
  requested_messages body = Some ms ->
  requested_stream body = true ->
  rejects up = None ->
  events up = map OnData chunks ++ rest ->
  Forall (fun ev => terminates ev = true) rest ->
  records (written (serve clock up body))
  = List.length (filter emits (lines_of (joined chunks))).
Proof.
  intros Hm Hs Hst Hr He Ht.
  rewrite (serve_stream clock up body s ms Hm Hs Hst Hr), He.
  rewrite deliver_chunks_fresh.
  rewrite (deliver_closing_records clock (VStr s) rest Ht).
  rewrite after_lines_records. reflexivity.
Qed.

Lemma counted_non_negative (j : json) : counted j -> non_negative j.
Proof. intros (n & -> & Hn & _). now exists n. Qed.

Lemma or_else_counted (o : option json) :
  (forall j, o = Some j -> countable j) ->
  counted (or_else o (JNum (int 0))).
Proof.
  assert (counted (JNum (int 0))) as Zero
      by (exists (int 0);
          split; [reflexivity|split; [simpl; lia|vm_compute; reflexivity]]).
  intros H. destruct o as [j|]; simpl; [|exact Zero].
  destruct (truthy (of_json j)) eqn:T; [|exact Zero].
  destruct (H j eq_refl) as [F|C]; [congruence|exact C].
Qed.

(** C5, amended.  For every JSON object the upstream returns to a valid
    non-streaming request, the handler answers 200 with one completion
    envelope that has every required field.  [content], [finish_reason] and
    each usage counter is the upstream's value when that value is there and
    truthy, and the default ([""], ["stop"], [0]) otherwise; for the empty
    object all of them are the defaults.  Nothing is clamped: a usage field
    is a number [>= 0] when the upstream's counter of that name is absent,
    falsy, or a number that is not negative and is finite, whatever else the
    upstream's [usage] holds. *)
Theorem normalizer_total_with_defaults (clock : nat -> Z) (up : upstream)
  (body : json) (s : string) (ms : list json) (props : list (string * json)) :
  requested_model body = Some s ->
  requested_messages body = Some ms ->
  requested_stream body = false ->
  rejects up = None ->
  data up = JObj props ->
  let choice := chain (assoc "choices" props) "0" in
  let usage := assoc "usage" props in
  let envelope :=
    JObj [ ("id", JStr ("chatcmpl-" ++ Text.of_Z (clock 0)));
           ("object", JStr "chat.completion");
           ("created", JNum (int (clock 1 / 1000)));
           ("model", JStr s);
           ("choices",
            JArr [ JObj [
              ("index", JNum (int 0));
              ("message",
               JObj [ ("role", JStr "assistant");
                      ("content",
                       or_else (chain (chain choice "message") "content")
                         (JStr "")) ]);
              ("finish_reason",
               or_else (chain choice "finish_reason") (JStr "stop")) ] ]);
           ("usage",
            JObj [ ("prompt_tokens",
                    or_else (chain usage "prompt_tokens") (JNum (int 0)));
                   ("completion_tokens",
                    or_else (chain usage "completion_tokens") (JNum (int 0)));
                   ("total_tokens",
                    or_else (chain usage "total_tokens") (JNum (int 0))) ]) ]
  in
  statusCode (serve clock up body) = VNum (int 200) /\
  sent (serve clock up body) = [Some envelope] /\
  (props = [] ->
   member envelope "choices"
   = Some (JArr [ JObj [
       ("index", JNum (int 0));
       ("message", JObj [ ("role", JStr "assistant");
                          ("content", JStr "") ]);
       ("finish_reason", JStr "stop") ] ]) /\
   member envelope "usage"
   = Some (JObj [ ("prompt_tokens", JNum (int 0));
                  ("completion_tokens", JNum (int 0));
                  ("total_tokens", JNum (int 0)) ])) /\
  (forall k, In k ["prompt_tokens"; "completion_tokens"; "total_tokens"] ->
     (forall j, chain usage k = Some j -> countable j) ->
     exists j, chain (member envelope "usage") k = Some j /\ counted j) /\
  ((forall k j, In k ["prompt_tokens"; "completion_tokens"; "total_tokens"] ->
               chain usage k = Some j -> countable j) ->
   usage_non_negative envelope).
Proof.
  intros Hm Hs Hst Hr Hd choice usage envelope.
  rewrite (serve_answer clock up body s ms props Hm Hs Hst Hr Hd).
  split; [reflexivity|]. split; [reflexivity|].
  split; [intros ->; split; reflexivity|].
  assert (forall k, In k ["prompt_tokens"; "completion_tokens"; "total_tokens"] ->
            (forall j, chain usage k = Some j -> countable j) ->
            exists j, chain (member envelope "usage") k = Some j /\ counted j)
    as Each.
  { intros k Hk H. unfold envelope.
    cbn [member assoc String.eqb Ascii.eqb Bool.eqb chain].
    destruct Hk as [<-|[<-|[<-|[]]]]; cbn; eexists; (split; [reflexivity|]);
      now apply or_else_counted. }
  split; [exact Each|].
  intros H k Hk. destruct (Each k Hk (fun j => H k j Hk)) as (j & Hj & Cj).
  exists j. split; [exact Hj|now apply counted_non_negative].
Qed.

Lemma normalizer_total_with_defaults_witness :
  sent (serve sample_clock sample_answer (sample_request "gpt-4" false))
  = [ Some (JObj [
        ("id", JStr "chatcmpl-1700000000000");
        ("object", JStr "chat.completion");
        ("created", JNum (int 1700000000));
        ("model", JStr "gpt-4");
        ("choices",
         JArr [ JObj [
           ("index", JNum (int 0));
           ("message", JObj [ ("role", JStr "assistant");
                              ("content", JStr "hello") ]);
           ("finish_reason", JStr "stop") ] ]);
        ("usage", JObj [ ("prompt_tokens", JNum (int 3));
                         ("completion_tokens", JNum (int 1));
                         ("total_tokens", JNum (int 4)) ]) ]) ] /\
  (exists j,
      chain (member (JObj [
        ("id", JStr "chatcmpl-1700000000000");
        ("object", JStr "chat.completion");
        ("created", JNum (int 1700000000));
        ("model", JStr "gpt-4");
        ("choices",
         JArr [ JObj [
           ("index", JNum (int 0));
           ("message", JObj [ ("role", JStr "assistant");
                              ("content", JStr "hello") ]);
           ("finish_reason", JStr "stop") ] ]);
        ("usage", JObj [ ("prompt_tokens", JNum (int 3));
                         ("completion_tokens", JNum (int 1));
                         ("total_tokens", JNum (int 4)) ]) ]) "usage")
        "total_tokens" = Some j /\ counted j).
Proof.
  pose proof (normalizer_total_with_defaults sample_clock sample_answer
                (sample_request "gpt-4" false) "gpt-4" sample_messages _
                eq_refl eq_refl eq_refl eq_refl eq_refl) as H.
  split; [exact (proj1 (proj2 H))|].
  apply (proj1 (proj2 (proj2 (proj2 H))) "total_tokens").
  - simpl. tauto.
  - intros j E. injection E as <-. right. exists (int 4).
    split; [reflexivity|split; [simpl; lia|vm_compute; reflexivity]].
Defined.

(** C5 as stated fails: a negative counter of the upstream is passed
    through, so the usage fields are not all [>= 0]. *)
Lemma negative_usage_passes_through :
  exists envelope,
    sent (serve sample_clock negative_usage (sample_request "gpt-4" false))
    = [Some envelope] /\
    chain (member envelope "usage") "prompt_tokens" = Some (JNum (int (-5))) /\
    ~ usage_non_negative envelope.
Proof.
  eexists. split; [reflexivity|]. split; [reflexivity|].
  intros H. destruct (H "prompt_tokens") as (j & Hj & n & Hn & Hpos).
  - now left.
  - cbn in Hj. injection Hj as <-. injection Hn as <-. simpl in Hpos. lia.
Qed.

(** *** The model table *)

(** A key of the table resolves to what the table maps it to. *)
Lemma nimModel_known (k backend : string) :
  own MODEL_MAPPING k = Some (VStr backend) ->
  nimModel (VStr k) = VStr backend.
Proof.
  unfold nimModel, lookup. cbn [key_of MODEL_MAPPING own assoc].
  repeat (destruct (_ =? k);
          [intros H; injection H as <-; reflexivity|]).
  discriminate.
Qed.

(** Any other name resolves to the default, unless every object inherits
    a property of that name. *)
Lemma nimModel_unknown (k : string) :
  own MODEL_MAPPING k = None -> plain k ->
  nimModel (VStr k) = VStr DEFAULT_NIM_MODEL.
Proof.
  unfold nimModel, lookup, plain. cbn [key_of]. intros -> ->. reflexivity.
Qed.

Example nimModel_default_elsewhere :
  nimModel (VStr "") = VStr DEFAULT_NIM_MODEL /\
  nimModel (VStr "GPT-4") = VStr DEFAULT_NIM_MODEL /\
  nimModel (VStr "12345") = VStr DEFAULT_NIM_MODEL /\
  nimModel (VStr "foo-bar") = VStr DEFAULT_NIM_MODEL.
Proof. repeat split. Qed.

(** C2, at the failing input.  ["constructor"] is no key of the table, but
    [MODEL_MAPPING["constructor"]] finds the function every object inherits
    from [Object.prototype]: the resolver returns that function instead of
    the default identifier, and the body posted to the upstream has no
    [model] at all. *)
Theorem inherited_name_is_not_the_default :
  nimModel (VStr "constructor") = VFun "constructor" /\
  nimModel (VStr "constructor") <> VStr DEFAULT_NIM_MODEL /\
  posted (serve sample_clock (Upstream None (JObj []) [])
            (sample_request "constructor" false))
  = [ (Some (JObj [ ("messages", JArr sample_messages);
                    ("temperature", JNum (Num 7 (-1)));
                    ("max_tokens", JNum (int 2048));
                    ("stream", JBool false) ]), false) ].
Proof.
  split; [reflexivity|]. split; [discriminate|reflexivity].
Qed.

(** ** Every response of the handler *)

Lemma on_line_frames (clock : nat -> Z) (model : value) (line : string)
  (w : world) :
  exists new,
    written (snd (on_line clock model line w)) = written w ++ new /\
    sent (snd (on_line clock model line w)) = sent w /\
    Forall (stream_frame model) new.
Proof.
  rewrite on_line_run. cbn [snd].
  destruct (startsWith line "data: "); cbn [negb].
  2:{ exists []. rewrite app_nil_r. repeat split; constructor. }
  destruct (includes line "[DONE]").
  { exists [Done]. repeat split. constructor; [now left|constructor]. }
  destruct (JSON.parse (slice 6 line)) as [j|].
  2:{ exists []. cbn. rewrite app_nil_r. repeat split; constructor. }
  destruct j;
    try (eexists [_]; repeat split;
         constructor; [right; do 3 eexists; reflexivity|constructor]).
  exists []. cbn. rewrite app_nil_r. repeat split; constructor.
Qed.

Lemma after_lines_frames (clock : nat -> Z) (model : value)
  (lines : list string) :
  forall w, exists new,
    written (after_lines clock model lines w) = written w ++ new /\
    sent (after_lines clock model lines w) = sent w /\
    Forall (stream_frame model) new.
Proof.
  induction lines as [|l lines IH]; intros w; cbn [after_lines fold_left].
  - exists []. rewrite app_nil_r. repeat split; constructor.
  - change (fold_left _ lines ?x) with (after_lines clock model lines x).
    destruct (on_line_frames clock model l w) as (n1 & W1 & S1 & F1).
    destruct (IH (snd (on_line clock model l w))) as (n2 & W2 & S2 & F2).
    exists (n1 ++ n2). rewrite W2, S2, W1, S1, app_assoc.
    repeat split. apply Forall_app; split; assumption.
Qed.

Lemma deliver_frames (clock : nat -> Z) (model : value) (evs : list event) :
  forall buffer w, exists new,
    written (snd (deliver clock model buffer evs w)) = written w ++ new /\
    sent (snd (deliver clock model buffer evs w)) = sent w /\
    Forall (stream_frame model) new.
Proof.
  induction evs as [|ev evs IH]; intros buffer w.
  - exists []. cbn. rewrite app_nil_r. repeat split; constructor.
  - destruct ev as [chunk| |err]; cbn [deliver]; unfold bind.
    + rewrite on_data_run.
      destruct (after_lines_frames clock model
                  (lines_of (buffer ++ Buffer.toString chunk)) w)
        as (n1 & W1 & S1 & F1).
      destruct (IH (carry (buffer ++ Buffer.toString chunk))
                  (after_lines clock model
                     (lines_of (buffer ++ Buffer.toString chunk)) w))
        as (n2 & W2 & S2 & F2).
      exists (n1 ++ n2). rewrite W2, S2, W1, S1, app_assoc.
      repeat split. apply Forall_app; split; assumption.
    + cbn.
      match goal with
      | |- context [deliver clock model buffer evs ?w1] =>
          destruct (IH buffer w1) as (n2 & W2 & S2 & F2)
      end.
      exists (Done :: n2). rewrite W2, S2. cbn. rewrite <- app_assoc.
      repeat split. constructor; [now left|assumption].
    + cbn.
      match goal with
      | |- context [deliver clock model buffer evs ?w1] =>
          destruct (IH buffer w1) as (n2 & W2 & S2 & F2)
      end.
      exists n2. rewrite W2, S2. repeat split. assumption.
Qed.

Lemma recover_replies (e : value) (w : world) :
  exists extra,
    sent (snd (recover e w)) = sent w ++ extra /\
    written (snd (recover e w)) = written w /\
    Forall (fun p => exists x, p = Some (JObj [("error", x)])) extra /\
    forall m, fst (recover e w) <> Ok (Some m).
Proof.
  unfold recover, bind, lift, get.
  destruct (nullish e).
  - exists []. cbn. rewrite app_nil_r. repeat split; (constructor || discriminate).
  - eexists [_]. cbn. repeat split; [|discriminate].
    constructor; [eexists; reflexivity|constructor].
Qed.

Lemma Forall_error_reply (body : json) (extra : list (option json)) :
  Forall (fun p => exists x, p = Some (JObj [("error", x)])) extra ->
  Forall (json_reply body) extra.
Proof. apply Forall_impl. intros p H. now left. Qed.

(** The world after the [catch] block, whatever was thrown. *)
Lemma caught_replies (clock : nat -> Z) (up : upstream) (body : json)
  (e : value) (w : world) :
  sent w = [] -> written w = [] ->
  Forall (json_reply body)
    (sent (snd (match recover e w with
                | (Ok (Some model), w') =>
                    deliver clock model "" (events up) w'
                | (Ok None, w') => (Ok tt, w')
                | (Throw e', w') => (Throw e', w')
                end))) /\
  written (snd (match recover e w with
                | (Ok (Some model), w') =>
                    deliver clock model "" (events up) w'
                | (Ok None, w') => (Ok tt, w')
                | (Throw e', w') => (Throw e', w')
                end)) = [].
Proof.
  intros Hs Hw.
  destruct (recover_replies e w) as (extra & S1 & W1 & F1 & N1).
  destruct (recover e w) as [[[m|]|e'] w']; cbn [snd fst] in *.
  - exfalso. now apply (N1 m).
  - rewrite S1, W1, Hs, Hw. split; [now apply Forall_error_reply|reflexivity].
  - rewrite S1, W1, Hs, Hw. split; [now apply Forall_error_reply|reflexivity].
Qed.

Lemma serve_replies (clock : nat -> Z) (up : upstream) (body : json) :
  Forall (json_reply body) (sent (serve clock up body)) /\
  Forall (fun f => exists s, requested_model body = Some s /\
                     stream_frame (VStr s) f)
    (written (serve clock up body)).
Proof.
  rewrite serve_unfold. unfold try_catch.
  assert (body = JNull \/ body <> JNull) as [->|Hb]
    by (destruct body; (now left) || (right; discriminate)).
  { change (attempt clock up JNull fresh)
      with (@Throw (option value)
              (error_object "Cannot destructure property 'model' of 'req.body' as it is null."),
            fresh).
    cbv beta iota.
    match goal with
    | |- context [recover ?e ?w] =>
        destruct (caught_replies clock up JNull e w eq_refl eq_refl)
          as [H1 H2]
    end.
    split; [exact H1|]. rewrite H2. constructor. }
  rewrite (attempt_run clock up body fresh Hb).
  destruct (requested_model body) as [s|] eqn:Hm.
  2:{ cbn. split; [|constructor].
      constructor; [left; eexists; reflexivity|constructor]. }
  destruct (requested_messages body) as [ms|].
  2:{ cbn. split; [|constructor].
      constructor; [left; eexists; reflexivity|constructor]. }
  cbv zeta.
  destruct (rejects up) as [e|].
  { cbv beta iota.
    match goal with
    | |- context [recover ?e ?w] =>
        destruct (caught_replies clock up body e w eq_refl eq_refl)
          as [H1 H2]
    end.
    split; [exact H1|]. rewrite H2. constructor. }
  destruct (requested_stream body).
  { cbv beta iota.
    match goal with
    | |- context [deliver clock ?m "" ?evs ?w] =>
        destruct (deliver_frames clock m evs "" w) as (n & W2 & S2 & F2)
    end.
    rewrite S2, W2. cbn. split; [constructor|].
    revert F2. apply Forall_impl. intros f Hf. exists s. now split. }
  destruct (data up) eqn:Hd;
    try (cbn; split; [|constructor];
         constructor; [right; do 4 eexists; split; [exact Hm|reflexivity]|constructor]).
  cbv beta iota.
  match goal with
  | |- context [recover ?e ?w] =>
      destruct (caught_replies clock up body e w eq_refl eq_refl)
        as [H1 H2]
  end.
  split; [exact H1|]. rewrite H2. constructor.
Qed.

Lemma StreamChunk_model (s : string) (t1 t2 : Z) (upstream : json) :
  member (StreamChunk (VStr s) t1 t2 upstream) "model" = Some (JStr s).
Proof. reflexivity. Qed.

Lemma CompletionEnvelope_model (s : string) (t1 t2 : Z) (upstream : json) :
  member (CompletionEnvelope (VStr s) t1 t2 upstream) "model" = Some (JStr s).
Proof. reflexivity. Qed.

Lemma after_lines_posted (clock : nat -> Z) (model : value)
  (lines : list string) :
  forall w, posted (after_lines clock model lines w) = posted w.
Proof.
  induction lines as [|l lines IH]; intros w; cbn [after_lines fold_left];
    [reflexivity|].
  change (fold_left _ lines ?x) with (after_lines clock model lines x).
  rewrite IH, on_line_run. cbn [snd].
  destruct (negb (startsWith l "data: ")); [reflexivity|].
  destruct (includes l "[DONE]"); [reflexivity|].
  destruct (JSON.parse (slice 6 l)) as [[]|]; reflexivity.
Qed.

Lemma deliver_posted (clock : nat -> Z) (model : value) (evs : list event) :
  forall buffer w,
    posted (snd (deliver clock model buffer evs w)) = posted w.
Proof.
  induction evs as [|[chunk| |err] evs IH]; intros buffer w;
    cbn [deliver]; unfold bind; [reflexivity| | |].
  - rewrite on_data_run, IH. apply after_lines_posted.
  - cbn. now rewrite IH.
  - cbn. now rewrite IH.
Qed.

Lemma recover_posted (e : value) (w : world) :
  posted (snd (recover e w)) = posted w.
Proof.
  unfold recover, bind, lift, get. destruct (nullish e); reflexivity.
Qed.

Lemma UpstreamRequest_model (body : json) (s : string) (ms : list json) :
  member (UpstreamRequest body s ms) "model" = stringify (nimModel (VStr s)).
Proof.
  unfold UpstreamRequest, model_field.
  destruct (stringify (nimModel (VStr s))); reflexivity.
Qed.

Lemma serve_posted (clock : nat -> Z) (up : upstream) (body : json)
  (s : string) :
  requested_model body = Some s ->
  Forall (fun call => exists request,
              fst call = Some request /\
              member request "model" = stringify (nimModel (VStr s)))
    (posted (serve clock up body)).
Proof.
  intros Hm. rewrite serve_unfold. unfold try_catch.
  rewrite (attempt_run clock up body fresh (requested_model_not_null _ _ Hm)).
  rewrite Hm.
  destruct (requested_messages body) as [ms|]; [|constructor].
  cbv zeta.
  assert (forall w : world,
             posted w = [(Some (UpstreamRequest body s ms),
                          requested_stream body)] ->
             Forall (fun call => exists request,
                         fst call = Some request /\
                         member request "model"
                         = stringify (nimModel (VStr s))) (posted w)) as Hw.
  { intros w ->. constructor; [|constructor].
    eexists. split; [reflexivity|apply UpstreamRequest_model]. }
  destruct (rejects up) as [e|].
  { cbv beta iota.
    match goal with
    | |- context [recover ?e ?w] =>
        pose proof (recover_posted e w) as Hp;
        destruct (recover_replies e w) as (_ & _ & _ & _ & N1);
        destruct (recover e w) as [[[m|]|e'] w']
    end; cbn [snd fst] in *; [exfalso; now apply (N1 m)| |];
      apply Hw; rewrite Hp; reflexivity. }
  destruct (requested_stream body).
  { cbv beta iota. apply Hw. rewrite deliver_posted. reflexivity. }
  destruct (data up); apply Hw; reflexivity.
Qed.

Lemma CompletionEnvelope_object (model : value) (t1 t2 : Z) (upstream : json) :
  member (CompletionEnvelope model t1 t2 upstream) "object"
  = Some (JStr "chat.completion").
Proof. reflexivity. Qed.

(** A line that emits is a data line with a JSON value other than [null],
    and all it does is write the chunk made from that value. *)
Lemma on_line_emits (clock : nat -> Z) (model : value) (line : string)
  (w : world) :
  emits line = true ->
  exists j,
    JSON.parse (slice 6 line) = Some j /\
    on_line clock model line w
    = (Ok tt,
       wrote (Data (Some (StreamChunk model (clock (ticks w))
                            (clock (S (ticks w))) j))) (later w)).
Proof.
  unfold emits. rewrite on_line_run.
  destruct (startsWith line "data: "); [|discriminate].
  destruct (includes line "[DONE]"); [discriminate|].
  destruct (JSON.parse (slice 6 line)) as [j|]; [|discriminate].
  cbn [negb andb]. intros H. exists j. split; [reflexivity|].
  destruct j; (discriminate H || reflexivity).
Qed.

(** What was sent, read as the claims about envelopes need it. *)
Lemma serve_sent (clock : nat -> Z) (up : upstream) (body : json) :
  Forall (fun p => (exists x, p = Some (JObj [("error", x)])) \/
            exists s t1 t2 upstream,
              requested_model body = Some s /\
              p = Some (CompletionEnvelope (VStr s) t1 t2 upstream))
    (sent (serve clock up body)).
Proof. exact (proj1 (serve_replies clock up body)). Qed.

(** C6.  For a request that names the model [s]: every frame written to
    the stream is the sentinel or a chunk with [model = s], and every body
    sent is an error envelope or a completion envelope with [model = s],
    whatever the upstream does and whether or not [s] is in the table.  The
    envelope and the chunks are there: an upstream body other than [null]
    is answered with one such envelope, a stream gives one chunk for each
    line that yields a record, and such a line writes one chunk with
    [model = s].  The backend identifier [nimModel s] goes into the request
    posted to the upstream and nowhere else. *)
Theorem model_field_echoes_the_request (clock : nat -> Z) (up : upstream)
  (body : json) (s : string) :
  requested_model body = Some s ->
  Forall (fun f => f = Done \/
            exists chunk, f = Data (Some chunk) /\
                          member chunk "model" = Some (JStr s))
    (written (serve clock up body)) /\
  Forall (fun p => (exists x, p = Some (JObj [("error", x)])) \/
            exists envelope,
              p = Some envelope /\
              member envelope "object" = Some (JStr "chat.completion") /\
              member envelope "model" = Some (JStr s))
    (sent (serve clock up body)) /\
  (forall ms,
      requested_messages body = Some ms ->
      requested_stream body = false ->
      rejects up = None ->
      data up <> JNull ->
      exists envelope,
        sent (serve clock up body) = [Some envelope] /\
        member envelope "object" = Some (JStr "chat.completion") /\
        member envelope "model" = Some (JStr s)) /\
  (forall ms chunks rest,
      requested_messages body = Some ms ->
      requested_stream body = true ->
      rejects up = None ->
      events up = map OnData chunks ++ rest ->
      Forall (fun ev => terminates ev = true) rest ->
      records (written (serve clock up body))
      = List.length (filter emits (lines_of (joined chunks)))) /\
  (forall line w,
      emits line = true ->
      exists chunk,
        written (snd (on_line clock (VStr s) line w))
        = written w ++ [Data (Some chunk)] /\
        member chunk "model" = Some (JStr s)) /\
  Forall (fun call => exists request,
            fst call = Some request /\
            member request "model" = stringify (nimModel (VStr s)))
    (posted (serve clock up body)).
Proof.
  intros Hm. repeat split.
  - destruct (serve_replies clock up body) as [_ Hw].
    revert Hw. apply Forall_impl. intros f (s' & Hs' & Hf).
    rewrite Hm in Hs'. injection Hs' as <-.
    destruct Hf as [Hf|(t1 & t2 & u & ->)]; [now left|right].
    eexists. split; [reflexivity|apply StreamChunk_model].
  - generalize (serve_sent clock up body). apply Forall_impl.
    intros p [Hp|(s' & t1 & t2 & u & Hs' & ->)]; [now left|right].
    rewrite Hm in Hs'. injection Hs' as <-.
    eexists. split; [reflexivity|].
    split; [apply CompletionEnvelope_object|apply CompletionEnvelope_model].
  - intros ms Hs Hst Hr Hd.
    rewrite (serve_answer_any clock up body s ms Hm Hs Hst Hr Hd).
    eexists. split; [reflexivity|].
    split; [apply CompletionEnvelope_object|apply CompletionEnvelope_model].
  - intros ms chunks rest Hs Hst Hr He Ht.
    exact (serve_stream_records clock up body s ms chunks rest
             Hm Hs Hst Hr He Ht).
  - intros line w He.
    destruct (on_line_emits clock (VStr s) line w He) as (j & _ & ->).
    eexists. split; [reflexivity|apply StreamChunk_model].
  - now apply serve_posted.
Qed.

Lemma model_field_echoes_the_request_witness :
  (exists envelope,
      sent (serve sample_clock sample_answer (sample_request "foo-bar" false))
      = [Some envelope] /\
      member envelope "object" = Some (JStr "chat.completion") /\
      member envelope "model" = Some (JStr "foo-bar")) /\
  Forall (fun f => f = Done \/
            exists chunk, f = Data (Some chunk) /\
                          member chunk "model" = Some (JStr "foo-bar"))
    (written (serve sample_clock sample_stream
                (sample_request "foo-bar" true))) /\
  records (written (serve sample_clock sample_stream
                      (sample_request "foo-bar" true))) = 1 /\
  Forall (fun call => exists request,
            fst call = Some request /\
            member request "model" = Some (JStr DEFAULT_NIM_MODEL))
    (posted (serve sample_clock sample_answer
               (sample_request "foo-bar" false))).
Proof.
  split; [|split; [|split]].
  - apply (proj1 (proj2 (proj2
             (model_field_echoes_the_request sample_clock sample_answer
                (sample_request "foo-bar" false) "foo-bar" eq_refl)))
             sample_messages); try reflexivity.
    discriminate.
  - exact (proj1 (model_field_echoes_the_request sample_clock sample_stream
                    (sample_request "foo-bar" true) "foo-bar" eq_refl)).
  - apply (proj1 (proj2 (proj2 (proj2
             (model_field_echoes_the_request sample_clock sample_stream
                (sample_request "foo-bar" true) "foo-bar" eq_refl))))
             sample_messages sample_chunks [OnEnd]); try reflexivity.
    repeat constructor.
  - exact (proj2 (proj2 (proj2 (proj2 (proj2
             (model_field_echoes_the_request sample_clock sample_answer
                (sample_request "foo-bar" false) "foo-bar" eq_refl)))))).
Defined.








(** *** The stream of a valid request *)

(** C1, amended.  For a valid streaming request whose upstream stream
    ends normally, the terminal sentinel is written once at end-of-stream,
    unconditionally and as the last record before the response is closed,
    and once more for every complete upstream line that starts with
    ["data: "] and contains ["[DONE]"]: it is written exactly once when the
    upstream sent no such line. *)
Theorem sentinel_at_end_and_per_done_line (clock : nat -> Z) (up : upstream)
  (body : json) (s : string) (ms : list json) (chunks : list string) :
  requested_model body = Some s ->
  requested_messages body = Some ms ->
  requested_stream body = true ->
  rejects up = None ->
  events up = map OnData chunks ++ [OnEnd] ->
  sentinels (written (serve clock up body))
  = 1 + List.length (filter is_sentinel (lines_of (joined chunks))) /\
  (exists before, written (serve clock up body) = before ++ [Done]) /\
  ended (serve clock up body) = true.
Proof.
  intros Hm Hs Hst Hr He.
  rewrite (serve_stream clock up body s ms Hm Hs Hst Hr), He.
  rewrite deliver_chunks_fresh. cbn [deliver]. unfold on_end, bind.
  cbn [res_write res_end ret snd written ended].
  repeat split.
  - rewrite sentinels_app, after_lines_sentinels. cbn. lia.
  - eexists. reflexivity.
Qed.

Lemma sentinel_at_end_and_per_done_line_witness :
  sentinels (written (serve sample_clock sample_stream
                        (sample_request "gpt-4" true))) = 2 /\
  (exists before,
      written (serve sample_clock sample_stream (sample_request "gpt-4" true))
      = before ++ [Done]) /\
  ended (serve sample_clock sample_stream (sample_request "gpt-4" true))
  = true.
Proof.
  exact (sentinel_at_end_and_per_done_line sample_clock sample_stream
           (sample_request "gpt-4" true) "gpt-4" sample_messages
           sample_chunks
           eq_refl eq_refl eq_refl eq_refl eq_refl).
Defined.

(** C1 as stated fails: an explicit [[DONE]] line followed by end-of-stream
    gives the sentinel twice. *)
Lemma sentinel_written_twice :
  written (serve sample_clock done_then_end (sample_request "gpt-4" true))
  = [Done; Done] /\
  sentinels (written (serve sample_clock done_then_end
                        (sample_request "gpt-4" true))) <> 1.
Proof. split; [reflexivity|discriminate]. Qed.

(** Two chunks in a row, the first of which ends between two characters,
    do what the two do as one chunk. *)
Lemma deliver_two_chunks (clock : nat -> Z) (model : value)
  (buffer c1 c2 : string) (rest : list event) (w : world) :
  ends_on_a_character c1 = true ->
  deliver clock model buffer (OnData c1 :: OnData c2 :: rest) w
  = deliver clock model buffer (OnData (c1 ++ c2) :: rest) w.
Proof.
  intros H. apply Nat.eqb_eq in H.
  cbn [deliver]. unfold bind. rewrite !on_data_run.
  rewrite <- after_lines_app, <- carry_app, <- lines_of_app.
  now rewrite (toString_app c1 c2 H), append_assoc.
Qed.

Lemma StreamChunk_delta (model : value) (t1 t2 : Z) (upstream : json) :
  chain (chain (member (StreamChunk model t1 t2 upstream) "choices") "0")
    "delta"
  = Some (JObj (role_field
                  (chain (chain (chain (member upstream "choices") "0")
                            "delta") "role") ++
                [ ("content",
                   or_else (chain (chain (chain (member upstream "choices") "0")
                                     "delta") "content") (JStr "")) ])).
Proof.
  unfold StreamChunk, model_field. destruct (stringify model); reflexivity.
Qed.

(** C3, at the failing input.  The line
    [data: {"choices":[{"delta":{"content":"caf\u00e9"}}]}] in one chunk
    gives one record, whose content is that word.  Cut between the two
    bytes of its last letter the line still gives one record, but
    [buffer += chunk.toString()] decodes each chunk on its own, so each
    half of the letter becomes U+FFFD before the two meet in the buffer:
    the content is [caf] followed by two replacement characters.  The
    bytes of the letter are lost, and the two chunks do not do what the
    line does. *)
Theorem character_cut_by_a_chunk_boundary_is_lost :
  (exists record,
      written (serve sample_clock cafe_whole (sample_request "gpt-4" true))
      = [Data (Some record); Done] /\
      content_of record = Some (JStr ("caf" ++ e_acute))) /\
  (exists record,
      written (serve sample_clock cafe_cut (sample_request "gpt-4" true))
      = [Data (Some record); Done] /\
      content_of record
      = Some (JStr ("caf" ++ Buffer.replacement ++ Buffer.replacement))) /\
  written (serve sample_clock cafe_cut (sample_request "gpt-4" true))
  <> written (serve sample_clock cafe_whole (sample_request "gpt-4" true)).
Proof.
  split; [|split].
  - eexists. split; reflexivity.
  - eexists. split; reflexivity.
  - intros H. vm_compute in H. discriminate H.
Qed.

(** C4.  When a line makes the handler write a chunk, the [delta] of that
    chunk has a [role] key exactly when the upstream event's
    [choices[0].delta.role] is there and not empty (truthy: for a string,
    not [""]), and then with the upstream's value; when the upstream role is
    absent, [null] or [""] the key is absent. *)
Theorem role_key_only_when_supplied (clock : nat -> Z) (model : value)
  (line : string) (w : world) (p : option json) :
  written (snd (on_line clock model line w)) = written w ++ [Data p] ->
  exists upstream chunk delta,
    JSON.parse (slice 6 line) = Some upstream /\
    p = Some chunk /\
    chain (chain (member chunk "choices") "0") "delta" = Some (JObj delta) /\
    let role :=
      chain (chain (chain (member upstream "choices") "0") "delta") "role" in
    (assoc "role" delta <> None <-> truthy (val role) = true) /\
    (truthy (val role) = true -> assoc "role" delta = role) /\
    (role = None \/ role = Some JNull \/ role = Some (JStr "") ->
     assoc "role" delta = None) /\
    (forall r, role = Some (JStr r) -> r <> "" ->
               assoc "role" delta = Some (JStr r)).
Proof.
  rewrite on_line_run. cbn [snd]. intros H.
  assert (forall new, written w ++ new = written w ++ [Data p] ->
                      new = [Data p]) as Inv
      by (intros new; apply app_inv_head).
  destruct (startsWith line "data: "); cbn [negb] in H.
  2:{ specialize (Inv []). rewrite app_nil_r in Inv.
      specialize (Inv H). discriminate. }
  destruct (includes line "[DONE]").
  { specialize (Inv [Done] H). discriminate. }
  destruct (JSON.parse (slice 6 line)) as [j|].
  2:{ specialize (Inv []). rewrite app_nil_r in Inv.
      specialize (Inv H). discriminate. }
  assert (p = Some (StreamChunk model (clock (ticks w)) (clock (S (ticks w))) j))
    as ->.
  { destruct j; try (specialize (Inv _ H); now injection Inv as <-).
    specialize (Inv []). cbn in H. rewrite app_nil_r in Inv.
    specialize (Inv H). discriminate. }
  exists j. eexists. eexists. split; [reflexivity|]. split; [reflexivity|].
  split; [apply StreamChunk_delta|].
  cbv zeta.
  destruct (chain (chain (chain (member j "choices") "0") "delta") "role")
    as [r|]; cbn [role_field val].
  - destruct (truthy (of_json r)) eqn:T; cbn [app assoc String.eqb Ascii.eqb
                                                 Bool.eqb].
    + repeat split; try congruence.
      intros [Hr|[Hr|Hr]]; try discriminate; injection Hr as ->;
        discriminate T.
    + repeat split; try congruence.
      intros r' Hr Hne. injection Hr as ->. cbn in T.
      destruct (r' =? "") eqn:E; [|discriminate T].
      apply String.eqb_eq in E. contradiction.
  - cbn. repeat split; try congruence.
Qed.

Lemma role_key_only_when_supplied_witness :
  exists upstream chunk delta,
    JSON.parse (dq "{'choices':[{'delta':{'role':'','content':'A'}}]}")
    = Some upstream /\
    Some (StreamChunk (VStr "gpt-4") (sample_clock 0) (sample_clock 1)
            (JObj [ ("choices",
                     JArr [ JObj [ ("delta",
                                    JObj [ ("role", JStr "");
                                           ("content", JStr "A") ]) ] ]) ]))
    = Some chunk /\
    chain (chain (member chunk "choices") "0") "delta" = Some (JObj delta) /\
    let role :=
      chain (chain (chain (member upstream "choices") "0") "delta") "role" in
    (assoc "role" delta <> None <-> truthy (val role) = true) /\
    (truthy (val role) = true -> assoc "role" delta = role) /\
    (role = None \/ role = Some JNull \/ role = Some (JStr "") ->
     assoc "role" delta = None) /\
    (forall r, role = Some (JStr r) -> r <> "" ->
               assoc "role" delta = Some (JStr r)).
Proof.
  exact (role_key_only_when_supplied sample_clock (VStr "gpt-4")
           (dq "data: {'choices':[{'delta':{'role':'','content':'A'}}]}")
           fresh _ eq_refl).
Defined.

(** C8.  A line that starts with ["data: "], does not contain the sentinel
    token ["[DONE]"] and whose remainder is not JSON is logged and nothing
    else: no record is written, nothing is sent, the status is untouched and
    nothing is thrown; the lines after it are processed as usual. *)
Theorem malformed_line_is_logged_and_skipped (clock : nat -> Z)
  (model : value) (rest : string) (w : world) :
  includes ("data: " ++ rest) "[DONE]" = false ->
  JSON.parse rest = None ->
  on_line clock model ("data: " ++ rest) w
  = (Ok tt,
     World (statusCode w) (headers w) (sent w) (written w) (ended w)
       (console w ++ [Log "Stream parse error:" syntax_error]) (ticks w)
       (posted w)) /\
  (forall before after w0,
      forEach (before ++ ("data: " ++ rest)%string :: after)
        (on_line clock model) w0
      = forEach after (on_line clock model)
          (complained "Stream parse error:" syntax_error
             (after_lines clock model before w0))).
Proof.
  intros Hd Hp.
  assert (forall w1, on_line clock model ("data: " ++ rest) w1
                     = (Ok tt, complained "Stream parse error:" syntax_error w1))
    as Hline.
  { intros w1. rewrite on_line_run.
    change (startsWith ("data: " ++ rest) "data: ")
      with (String.prefix "" rest).
    change (slice 6 ("data: " ++ rest)) with rest.
    rewrite Hd, Hp. destruct rest; reflexivity. }
  split; [apply Hline|].
  intros before after w0. rewrite !forEach_on_line. f_equal.
  rewrite after_lines_app. cbn [after_lines fold_left]. now rewrite Hline.
Qed.

Lemma malformed_line_is_logged_and_skipped_witness :
  on_line sample_clock (VStr "gpt-4") (dq "data: {'choices':") fresh
  = (Ok tt,
     World (VNum (int 200)) [] [] [] false
       [Log "Stream parse error:" syntax_error] 0 []) /\
  written (snd (forEach [ (dq "data: {'choices':"); "data: [DONE]" ]
                  (on_line sample_clock (VStr "gpt-4")) fresh))
  = [Done].
Proof.
  split.
  - exact (proj1 (malformed_line_is_logged_and_skipped sample_clock
                    (VStr "gpt-4") (dq "{'choices':") fresh eq_refl eq_refl)).
  - exact (f_equal (fun r => written (snd r))
             (proj2 (malformed_line_is_logged_and_skipped sample_clock
                       (VStr "gpt-4") (dq "{'choices':") fresh eq_refl eq_refl)
                [] [ "data: [DONE]" ] fresh)).
Defined.

(* ===================================================================== *)
(** ** Further properties of the handler *)
(* ===================================================================== *)

(** *** What the listeners leave alone *)

Lemma same_response_refl (w : world) : same_response w w.
Proof. repeat split. Qed.

Lemma same_response_trans (w1 w2 w3 : world) :
  same_response w1 w2 -> same_response w2 w3 -> same_response w1 w3.
Proof.
  intros (A1 & A2 & A3 & A4 & A5) (B1 & B2 & B3 & B4 & B5).
  repeat split; congruence.
Qed.

Section Stream.

Variable clock : nat -> Z.
Variable model : value.

Lemma on_line_same_response (line : string) (w : world) :
  same_response w (snd (on_line clock model line w)).
Proof.
  rewrite on_line_run. cbn [snd].
  destruct (negb (startsWith line "data: ")); [apply same_response_refl|].
  destruct (includes line "[DONE]"); [repeat split|].
  destruct (JSON.parse (slice 6 line)) as [[]|]; repeat split.
Qed.

Lemma after_lines_same_response (lines : list string) :
  forall w, same_response w (after_lines clock model lines w).
Proof.
  induction lines as [|l lines IH]; intros w; cbn [after_lines fold_left].
  - apply same_response_refl.
  - change (fold_left _ lines ?x) with (after_lines clock model lines x).
    eapply same_response_trans; [apply on_line_same_response|apply IH].
Qed.

(** The stream events change the response only by writing frames and, at
    ['end'] or ['error'], by closing it; no listener throws. *)
Lemma deliver_run (evs : list event) :
  forall buffer w,
    fst (deliver clock model buffer evs w) = Ok tt /\
    statusCode (snd (deliver clock model buffer evs w)) = statusCode w /\
    headers (snd (deliver clock model buffer evs w)) = headers w /\
    sent (snd (deliver clock model buffer evs w)) = sent w /\
    posted (snd (deliver clock model buffer evs w)) = posted w /\
    ended (snd (deliver clock model buffer evs w))
    = ended w || existsb terminates evs.
Proof.
  induction evs as [|[chunk| |err] evs IH]; intros buffer w;
    cbn [deliver existsb terminates]; unfold bind.
  - rewrite orb_false_r. repeat split.
  - rewrite on_data_run.
    destruct (after_lines_same_response
                (lines_of (buffer ++ Buffer.toString chunk)) w)
      as (A1 & A2 & A3 & A4 & A5).
    destruct (IH (carry (buffer ++ Buffer.toString chunk))
                (after_lines clock model
                   (lines_of (buffer ++ Buffer.toString chunk)) w))
      as (B0 & B1 & B2 & B3 & B4 & B5).
    rewrite B1, B2, B3, B4, B5, A1, A2, A3, A4, A5. repeat split. exact B0.
  - cbn.
    match goal with
    | |- context [deliver clock model buffer evs ?w1] =>
        destruct (IH buffer w1) as (B0 & B1 & B2 & B3 & B4 & B5)
    end.
    rewrite B1, B2, B3, B4, B5. cbn. rewrite orb_true_r. repeat split.
    exact B0.
  - cbn.
    match goal with
    | |- context [deliver clock model buffer evs ?w1] =>
        destruct (IH buffer w1) as (B0 & B1 & B2 & B3 & B4 & B5)
    end.
    rewrite B1, B2, B3, B4, B5. cbn. rewrite orb_true_r. repeat split.
    exact B0.
Qed.

(** *** Lines that are no data lines *)

Lemma after_lines_data_only (lines : list string) :
  forall w,
    after_lines clock model lines w
    = after_lines clock model
        (filter (fun l => startsWith l "data: ") lines) w.
Proof.
  induction lines as [|l lines IH]; intros w; [reflexivity|].
  cbn [filter after_lines fold_left].
  change (fold_left _ lines ?x) with (after_lines clock model lines x).
  destruct (startsWith l "data: ") eqn:S.
  - cbn [after_lines fold_left].
    change (fold_left _ ?ls ?x) with (after_lines clock model ls x).
    apply IH.
  - rewrite on_line_run, S. cbn [negb snd]. apply IH.
Qed.

End Stream.

(** *** Text without a newline *)

Lemma has_split (c : ascii) (s : string) :
  has c s = false -> split c s = [s].
Proof.
  induction s as [|x r IH]; [reflexivity|].
  cbn [has split]. destruct (x =? c)%char; [discriminate|].
  cbn [orb]. intros H. now rewrite (IH H).
Qed.

Lemma split_segments (c : ascii) (s : string) :
  Forall (fun seg => has c seg = false) (split c s).
Proof.
  induction s as [|x r IH]; cbn [split].
  - repeat constructor.
  - destruct (x =? c)%char eqn:X.
    + constructor; [reflexivity|exact IH].
    + destruct (split c r) as [|h t].
      * repeat constructor. cbn. now rewrite X.
      * inversion IH as [|? ? Hh Ht]; subst.
        constructor; [cbn; now rewrite X, Hh|exact Ht].
Qed.

Lemma carry_has_no_newline (s : string) : has newline (carry s) = false.
Proof.
  destruct (split_snoc newline s) as (front & last & E).
  destruct (carry_snoc s front last E) as [-> _].
  pose proof (split_segments newline s) as F. rewrite E in F.
  apply Forall_app in F as [_ F]. now inversion F.
Qed.

Lemma lines_of_no_newline (s : string) :
  has newline s = false -> carry s = s /\ lines_of s = [].
Proof.
  intros H. apply (carry_snoc s [] s). cbn [app]. now apply has_split.
Qed.

(** Text after the last newline adds no line. *)
Lemma lines_of_tail (s tail : string) :
  has newline tail = false -> lines_of (s ++ tail) = lines_of s.
Proof.
  intros H. rewrite lines_of_app.
  destruct (lines_of_no_newline (carry s ++ tail)) as [_ ->].
  - now rewrite has_append, carry_has_no_newline, H.
  - apply app_nil_r.
Qed.

Lemma joined_snoc (chunks : list string) (tail : string) :
  joined (chunks ++ [tail]) = (joined chunks ++ Buffer.toString tail)%string.
Proof.
  induction chunks as [|c chunks IH]; cbn [joined fold_right app].
  - now rewrite append_empty.
  - fold (joined (chunks ++ [tail])). fold (joined chunks).
    rewrite IH. now rewrite append_assoc.
Qed.

(** *** The stream, seen by the client *)

(** X1.  When the upstream stream breaks with a transport error, the
    listener logs it and closes the response: no sentinel and no error
    payload are written.  The client has received exactly what a normal end
    would have given it, less the closing sentinel; the status is still 200
    and no JSON body is sent. *)
Theorem stream_error_closes_silently (clock : nat -> Z) (body : json)
  (s : string) (ms : list json) (d : json) (chunks : list string)
  (err : value) :
  requested_model body = Some s ->
  requested_messages body = Some ms ->
  requested_stream body = true ->
  let broken := Upstream None d (map OnData chunks ++ [OnError err]) in
  let finished := Upstream None d (map OnData chunks ++ [OnEnd]) in
  written (serve clock finished body)
  = written (serve clock broken body) ++ [Done] /\
  sentinels (written (serve clock broken body))
  = List.length (filter is_sentinel (lines_of (joined chunks))) /\
  (exists logs,
      console (serve clock broken body) = logs ++ [Log "Stream error:" err]) /\
  ended (serve clock broken body) = true /\
  sent (serve clock broken body) = [] /\
  statusCode (serve clock broken body) = VNum (int 200).
Proof.
  intros Hm Hs Hst broken finished.
  rewrite (serve_stream clock finished body s ms Hm Hs Hst eq_refl).
  rewrite (serve_stream clock broken body s ms Hm Hs Hst eq_refl).
  cbn [events broken finished].
  rewrite !deliver_chunks_fresh. cbn [deliver].
  unfold on_end, on_error, bind.
  cbn [res_write res_end console_error ret snd written ended console sent
       statusCode].
  set (w0 := streaming (called (UpstreamRequest body s ms) true fresh)).
  destruct (after_lines_same_response clock (VStr s)
              (lines_of (joined chunks)) w0) as (A1 & A2 & A3 & A4 & A5).
  repeat split.
  - rewrite after_lines_sentinels. reflexivity.
  - eexists. reflexivity.
  - rewrite A3. reflexivity.
  - rewrite A1. reflexivity.
Qed.

Lemma stream_error_closes_silently_witness :
  written (serve sample_clock
             (Upstream None JNull (map OnData sample_chunks ++ [OnEnd]))
             (sample_request "gpt-4" true))
  = written (serve sample_clock
               (Upstream None JNull
                  (map OnData sample_chunks
                   ++ [OnError (error_object "socket hang up")]))
               (sample_request "gpt-4" true)) ++ [Done].
Proof.
  exact (proj1 (stream_error_closes_silently sample_clock
                  (sample_request "gpt-4" true) "gpt-4" sample_messages JNull
                  sample_chunks (error_object "socket hang up")
                  eq_refl eq_refl eq_refl)).
Defined.

(** X2.  What the upstream sends after its last newline is never
    processed: when the stream ends (or breaks) on an unfinished line, that
    line is dropped, and the response is the one the stream without it
    gets. *)
Theorem unfinished_last_line_is_dropped (clock : nat -> Z) (body : json)
  (s : string) (ms : list json) (d : json) (chunks : list string)
  (tail : string) (rest : list event) :
  requested_model body = Some s ->
  requested_messages body = Some ms ->
  requested_stream body = true ->
  has newline tail = false ->
  Forall (fun ev => terminates ev = true) rest ->
  serve clock (Upstream None d (map OnData (chunks ++ [tail]) ++ rest)) body
  = serve clock (Upstream None d (map OnData chunks ++ rest)) body.
Proof.
  intros Hm Hs Hst Ht Hr.
  rewrite (serve_stream clock
             (Upstream None d (map OnData (chunks ++ [tail]) ++ rest))
             body s ms Hm Hs Hst eq_refl).
  rewrite (serve_stream clock (Upstream None d (map OnData chunks ++ rest))
             body s ms Hm Hs Hst eq_refl).
  cbn [events]. rewrite !deliver_chunks_fresh.
  rewrite joined_snoc, lines_of_tail
    by (rewrite has_toString; [exact Ht|cbn; lia]).
  f_equal. now apply deliver_closing.
Qed.

Lemma unfinished_last_line_is_dropped_witness :
  serve sample_clock sample_stream_cut (sample_request "gpt-4" true)
  = serve sample_clock sample_stream (sample_request "gpt-4" true).
Proof.
  apply (unfinished_last_line_is_dropped sample_clock
           (sample_request "gpt-4" true) "gpt-4" sample_messages JNull
           sample_chunks (dq "data: {'choices':[]}") [OnEnd]);
    try reflexivity.
  repeat constructor.
Defined.

(** X3.  Lines that do not start with ["data: "] (blank separator lines,
    comments, [event:] or [id:] fields, [data:] without the space) have no
    effect at all: a batch of lines does what its data lines alone do. *)
Theorem other_lines_are_ignored (clock : nat -> Z) (model : value)
  (lines : list string) (w : world) :
  forEach lines (on_line clock model) w
  = forEach (filter (fun l => startsWith l "data: ") lines)
      (on_line clock model) w.
Proof.
  rewrite !forEach_on_line. f_equal. apply after_lines_data_only.
Qed.

(** X4.  No exception escapes the stream listeners, whatever the upstream
    sends and whatever is in the buffer: what can throw ([JSON.parse],
    reading [choices] of [null]) is inside the [try] of the data
    listener. *)
Theorem listeners_never_throw (clock : nat -> Z) (model : value)
  (buffer : string) :
  (forall chunk w, exists buffer',
      fst (on_data clock model buffer chunk w) = Ok buffer') /\
  (forall evs w, fst (deliver clock model buffer evs w) = Ok tt).
Proof.
  split.
  - intros chunk w. rewrite on_data_run. eexists. reflexivity.
  - intros evs w. apply (deliver_run clock model evs buffer w).
Qed.

(** X5.  Once the upstream call of a streaming request has succeeded, the
    response is an event stream whatever the stream then does: the status
    stays 200, the three event-stream headers are the only ones, no JSON
    body (so no error envelope) is ever sent, and the response is closed
    exactly when the upstream signalled ['end'] or ['error']. *)
Theorem open_stream_stays_a_stream (clock : nat -> Z) (up : upstream)
  (body : json) (s : string) (ms : list json) :
  requested_model body = Some s ->
  requested_messages body = Some ms ->
  requested_stream body = true ->
  rejects up = None ->
  statusCode (serve clock up body) = VNum (int 200) /\
  headers (serve clock up body) = stream_headers /\
  sent (serve clock up body) = [] /\
  ended (serve clock up body) = existsb terminates (events up).
Proof.
  intros Hm Hs Hst Hr.
  rewrite (serve_stream clock up body s ms Hm Hs Hst Hr).
  destruct (deliver_run clock (VStr s) (events up) ""
              (streaming (called (UpstreamRequest body s ms) true fresh)))
    as (_ & B1 & B2 & B3 & _ & B5).
  rewrite B1, B2, B3, B5. repeat split.
Qed.

Lemma open_stream_stays_a_stream_witness :
  statusCode (serve sample_clock error_then_nothing
                (sample_request "gpt-4" true)) = VNum (int 200) /\
  headers (serve sample_clock error_then_nothing
             (sample_request "gpt-4" true)) = stream_headers /\
  sent (serve sample_clock error_then_nothing
          (sample_request "gpt-4" true)) = [] /\
  ended (serve sample_clock error_then_nothing
           (sample_request "gpt-4" true)) = true.
Proof.
  exact (open_stream_stays_a_stream sample_clock error_then_nothing
           (sample_request "gpt-4" true) "gpt-4" sample_messages
           eq_refl eq_refl eq_refl eq_refl).
Defined.

(** X6.  The records of a stream are one per complete line that starts
    with ["data: "], does not contain ["[DONE]"] and holds a JSON value
    other than [null]; every other line gives none, and so do the end and
    the error of the stream. *)
Theorem one_record_per_good_line (clock : nat -> Z) (body : json)
  (s : string) (ms : list json) (d : json) (chunks : list string)
  (rest : list event) :
  requested_model body = Some s ->
  requested_messages body = Some ms ->
  requested_stream body = true ->
  Forall (fun ev => terminates ev = true) rest ->
  records (written (serve clock
                      (Upstream None d (map OnData chunks ++ rest)) body))
  = List.length (filter emits (lines_of (joined chunks))).
Proof.
  intros Hm Hs Hst Hr.
  rewrite (serve_stream clock (Upstream None d (map OnData chunks ++ rest))
             body s ms Hm Hs Hst eq_refl).
  cbn [events]. rewrite deliver_chunks_fresh.
  rewrite (deliver_closing_records clock (VStr s) rest Hr).
  rewrite after_lines_records. reflexivity.
Qed.

Lemma one_record_per_good_line_witness :
  records (written (serve sample_clock sample_stream
                      (sample_request "gpt-4" true))) = 1.
Proof.
  apply (one_record_per_good_line sample_clock (sample_request "gpt-4" true)
           "gpt-4" sample_messages JNull sample_chunks [OnEnd]);
    try reflexivity.
  repeat constructor.
Defined.

(** *** Chunks and characters *)

(** X16.  However the line
    [data: {"choices":[{"delta":{"content":"A"}}]}] with its newline is cut
    into two chunks, feeding them one after the other writes exactly one
    record, whose content is ["A"]. *)
Theorem named_line_survives_every_cut (clock : nat -> Z) (model : value)
  (c1 c2 : string) (w : world) :
  (c1 ++ c2)%string = content_A_line ->
  exists chunk,
    written (snd (deliver clock model "" [OnData c1; OnData c2] w))
    = written w ++ [Data (Some chunk)] /\
    content_of chunk = Some (JStr "A").
Proof.
  intros H.
  assert (ascii_text c1 = true /\ ascii_text c2 = true) as [A1 A2].
  { apply andb_true_iff. rewrite <- ascii_text_app, H. reflexivity. }
  destruct (toString_ascii c1 A1) as [T1 _].
  destruct (toString_ascii c2 A2) as [T2 _].
  change [OnData c1; OnData c2] with (map OnData [c1; c2] ++ []).
  rewrite deliver_chunks_fresh. cbn [joined fold_right deliver ret snd].
  rewrite T1, T2, append_empty, H.
  change (lines_of content_A_line)
    with [(dq "data: {'choices':[{'delta':{'content':'A'}}]}")].
  cbn [after_lines fold_left].
  destruct (on_line_emits clock model
              (dq "data: {'choices':[{'delta':{'content':'A'}}]}") w eq_refl)
    as (j & Hj & ->).
  injection Hj as <-. eexists. split; [reflexivity|].
  unfold content_of, chain at 1. rewrite StreamChunk_delta. reflexivity.
Qed.

Lemma named_line_survives_every_cut_witness :
  exists chunk,
    written (snd (deliver sample_clock (VStr "gpt-4") ""
                    [ OnData (dq "data: {'choices':[{'d");
                      OnData ((dq "elta':{'content':'A'}}]}")
                              ++ String newline "")%string ] fresh))
    = [Data (Some chunk)] /\
    content_of chunk = Some (JStr "A").
Proof.
  exact (named_line_survives_every_cut sample_clock (VStr "gpt-4")
           (dq "data: {'choices':[{'d")
           ((dq "elta':{'content':'A'}}]}") ++ String newline "")%string
           fresh eq_refl).
Defined.

(** X17.  A sequence of chunks does what the complete lines of its text
    do, each once and in order, with the unfinished last line kept in the
    buffer; the text is that of the chunks, each decoded on its own.  Two
    chunks in a row do what their concatenation does when the first ends
    between two characters, as every chunk of ASCII text does. *)
Theorem chunks_act_as_the_lines_of_their_text (clock : nat -> Z)
  (model : value) :
  (forall chunks rest w,
      deliver clock model "" (map OnData chunks ++ rest) w
      = deliver clock model (carry (joined chunks)) rest
          (after_lines clock model (lines_of (joined chunks)) w)) /\
  (forall buffer c1 c2 rest w,
      ends_on_a_character c1 = true ->
      deliver clock model buffer (OnData c1 :: OnData c2 :: rest) w
      = deliver clock model buffer (OnData (c1 ++ c2) :: rest) w) /\
  (forall chunk, ascii_text chunk = true -> ends_on_a_character chunk = true).
Proof.
  split; [|split].
  - apply deliver_chunks_fresh.
  - intros buffer c1 c2 rest w. apply deliver_two_chunks.
  - intros chunk H. unfold ends_on_a_character.
    destruct (toString_ascii chunk H) as [_ ->]. reflexivity.
Qed.

Lemma chunks_act_as_the_lines_of_their_text_witness :
  deliver sample_clock (VStr "gpt-4") ""
    [ OnData (dq "data: {'choices':[{'delta':{'content':'caf") ;
      OnData (e_acute ++ dq "'}}]}" ++ String newline "")%string ] fresh
  = deliver sample_clock (VStr "gpt-4") ""
      [ OnData (cafe_head ++ cafe_tail)%string ] fresh.
Proof.
  exact (proj1 (proj2 (chunks_act_as_the_lines_of_their_text sample_clock
                         (VStr "gpt-4")))
           "" (dq "data: {'choices':[{'delta':{'content':'caf")
           (e_acute ++ dq "'}}]}" ++ String newline "")%string [] fresh
           eq_refl).
Defined.

(** *** The request that is posted *)

Lemma UpstreamRequest_member (body : json) (s : string) (ms : list json)
  (k : string) :
  k <> "model" ->
  member (UpstreamRequest body s ms) k
  = assoc k
      [ ("messages", JArr ms);
        ("temperature",
         match member body "temperature" with
         | Some t => t
         | None => JNum (Num 7 (-1))
         end);
        ("max_tokens", or_else (member body "max_tokens") (JNum (int 2048)));
        ("stream", or_else (member body "stream") (JBool false)) ].
Proof.
  intros Hk. unfold UpstreamRequest, model_field.
  destruct (stringify (nimModel (VStr s))); [|reflexivity].
  cbn [member app assoc]. destruct ("model" =? k) eqn:E; [|reflexivity].
  apply String.eqb_eq in E. congruence.
Qed.

Lemma requested_messages_member (body : json) (ms : list json) :
  requested_messages body = Some ms ->
  member body "messages" = Some (JArr ms).
Proof.
  unfold requested_messages.
  destruct (member body "messages") as [[ | | | | [|m l] | ]|];
    try discriminate.
  intros H; injection H as <-. reflexivity.
Qed.

Lemma serve_posted_once (clock : nat -> Z) (up : upstream) (body : json)
  (s : string) (ms : list json) :
  requested_model body = Some s ->
  requested_messages body = Some ms ->
  posted (serve clock up body)
  = [(Some (UpstreamRequest body s ms), requested_stream body)].
Proof.
  intros Hm Hs. rewrite serve_unfold. unfold try_catch.
  rewrite (attempt_run clock up body fresh (requested_model_not_null _ _ Hm)).
  rewrite Hm, Hs. cbv zeta.
  destruct (rejects up) as [e|].
  { cbv beta iota.
    match goal with
    | |- context [recover ?e ?w] =>
        pose proof (recover_posted e w) as Hp;
        destruct (recover_replies e w) as (_ & _ & _ & _ & N1);
        destruct (recover e w) as [[[m|]|e'] w']
    end; cbn [snd fst] in *; [exfalso; now apply (N1 m)| |];
      rewrite Hp; reflexivity. }
  destruct (requested_stream body).
  { cbv beta iota. rewrite deliver_posted. reflexivity. }
  destruct (data up); reflexivity.
Qed.

(** X7.  A request that passes validation is posted to the upstream
    exactly once, whatever the upstream then does.  The posted body carries
    the request's [messages] unchanged and in order; [temperature] is the
    request's whenever the key is there (also [0] and [null]) and [0.7]
    only when it is absent; [max_tokens] and [stream] are the request's
    when truthy and [2048] and [false] otherwise (so [max_tokens: 0]
    becomes [2048]); the response type asked for is ['stream'] exactly
    when [stream] is truthy. *)
Theorem valid_request_is_posted_once (clock : nat -> Z) (up : upstream)
  (body : json) (s : string) (ms : list json) :
  requested_model body = Some s ->
  requested_messages body = Some ms ->
  exists request,
    posted (serve clock up body) = [(Some request, requested_stream body)] /\
    member request "messages" = member body "messages" /\
    member request "temperature"
    = Some match member body "temperature" with
           | Some t => t
           | None => JNum (Num 7 (-1))
           end /\
    member request "max_tokens"
    = Some match member body "max_tokens" with
           | Some m => if truthy (of_json m) then m else JNum (int 2048)
           | None => JNum (int 2048)
           end /\
    member request "stream"
    = Some match member body "stream" with
           | Some f => if truthy (of_json f) then f else JBool false
           | None => JBool false
           end.
Proof.
  intros Hm Hs. exists (UpstreamRequest body s ms).
  split; [now apply serve_posted_once|].
  rewrite !UpstreamRequest_member by discriminate.
  rewrite (requested_messages_member body ms Hs). repeat split.
Qed.

Lemma valid_request_is_posted_once_witness :
  exists request,
    posted (serve sample_clock sample_rejection zero_request)
    = [(Some request, false)] /\
    member request "messages" = Some (JArr sample_messages) /\
    member request "temperature" = Some (JNum (int 0)) /\
    member request "max_tokens" = Some (JNum (int 2048)) /\
    member request "stream" = Some (JBool false).
Proof.
  exact (valid_request_is_posted_once sample_clock sample_rejection
           zero_request "gpt-4" sample_messages eq_refl eq_refl).
Defined.

(** *** One reply *)

Lemma recover_once (e : value) (w : world) :
  nullish e = false ->
  exists x,
    fst (recover e w) = Ok None /\
    sent (snd (recover e w)) = sent w ++ [Some (JObj [("error", x)])] /\
    written (snd (recover e w)) = written w /\
    headers (snd (recover e w)) = headers w /\
    ended (snd (recover e w)) = true.
Proof.
  intros N. unfold recover, bind, lift, get. rewrite N.
  eexists. cbn. repeat split.
Qed.

(** X8.  A request that is not streamed (it fails validation, or its
    [stream] flag is falsy) is answered exactly once, with one JSON body,
    and the response is closed: this holds for every body the handler can
    be given, every upstream answer and every failure thrown as an error
    object; no event-stream header is set and no frame is written. *)
Theorem plain_request_gets_one_reply (clock : nat -> Z) (up : upstream)
  (body : json) :
  (forall e, rejects up = Some e -> nullish e = false) ->
  requested_model body = None \/ requested_messages body = None \/
  requested_stream body = false ->
  exists reply,
    sent (serve clock up body) = [Some reply] /\
    written (serve clock up body) = [] /\
    headers (serve clock up body) = [] /\
    ended (serve clock up body) = true.
Proof.
  intros He Hplain. rewrite serve_unfold. unfold try_catch.
  assert (forall e w, nullish e = false ->
                      sent w = [] -> written w = [] -> headers w = [] ->
                      exists reply,
                        sent (snd (match recover e w with
                                   | (Ok (Some model), w') =>
                                       deliver clock model "" (events up) w'
                                   | (Ok None, w') => (Ok tt, w')
                                   | (Throw e', w') => (Throw e', w')
                                   end)) = [Some reply] /\
                        written (snd (match recover e w with
                                      | (Ok (Some model), w') =>
                                          deliver clock model "" (events up) w'
                                      | (Ok None, w') => (Ok tt, w')
                                      | (Throw e', w') => (Throw e', w')
                                      end)) = [] /\
                        headers (snd (match recover e w with
                                      | (Ok (Some model), w') =>
                                          deliver clock model "" (events up) w'
                                      | (Ok None, w') => (Ok tt, w')
                                      | (Throw e', w') => (Throw e', w')
                                      end)) = [] /\
                        ended (snd (match recover e w with
                                    | (Ok (Some model), w') =>
                                        deliver clock model "" (events up) w'
                                    | (Ok None, w') => (Ok tt, w')
                                    | (Throw e', w') => (Throw e', w')
                                    end)) = true) as Hcatch.
  { intros e w N S0 W0 H0.
    destruct (recover_once e w N) as (x & R0 & R1 & R2 & R3 & R4).
    destruct (recover e w) as [o w']. cbn [fst snd] in *. subst o.
    cbn [snd]. rewrite R1, R2, R3, R4, S0, W0, H0. eexists. repeat split. }
  assert (body = JNull \/ body <> JNull) as [->|Hb]
    by (destruct body; (now left) || (right; discriminate)).
  { change (attempt clock up JNull fresh)
      with (@Throw (option value)
              (error_object "Cannot destructure property 'model' of 'req.body' as it is null."),
            fresh).
    cbv beta iota. now apply Hcatch. }
  rewrite (attempt_run clock up body fresh Hb).
  destruct (requested_model body) as [s|].
  2:{ eexists. repeat split. }
  destruct (requested_messages body) as [ms|].
  2:{ eexists. repeat split. }
  destruct Hplain as [H|[H|Hst]]; try discriminate H.
  rewrite Hst. cbv zeta.
  destruct (rejects up) as [e|] eqn:Hr.
  { cbv beta iota. apply Hcatch; [now apply He| | |]; reflexivity. }
  destruct (data up); eexists; repeat split.
Qed.

Lemma plain_request_gets_one_reply_witness :
  exists reply,
    sent (serve sample_clock network_down (sample_request "gpt-4" false))
    = [Some reply] /\
    written (serve sample_clock network_down (sample_request "gpt-4" false))
    = [] /\
    headers (serve sample_clock network_down (sample_request "gpt-4" false))
    = [] /\
    ended (serve sample_clock network_down (sample_request "gpt-4" false))
    = true.
Proof.
  apply (plain_request_gets_one_reply sample_clock network_down
           (sample_request "gpt-4" false)).
  - intros e H. injection H as <-. reflexivity.
  - right. right. reflexivity.
Defined.

(** *** Failures *)

(** X9.  When the upstream call of a valid request fails, streaming asked
    for or not, no stream is started: no event-stream header is set and no
    frame is written.  The client gets one JSON error envelope with
    [param = null] whose [error.code] is the HTTP status of the response,
    and that status is 500 when the error carries no upstream status. *)
Theorem failed_dispatch_starts_no_stream (clock : nat -> Z) (up : upstream)
  (body : json) (s : string) (ms : list json) (err : json) :
  requested_model body = Some s ->
  requested_messages body = Some ms ->
  rejects up = Some (of_json err) ->
  err <> JNull ->
  exists status message,
    statusCode (serve clock up body) = of_json status /\
    sent (serve clock up body)
    = [ Some (JObj [ ("error", JObj [
          ("message", message);
          ("type", JStr "invalid_request_error");
          ("param", JNull);
          ("code", status) ]) ]) ] /\
    (chain (member err "response") "status" = None ->
     status = JNum (int 500)) /\
    headers (serve clock up body) = [] /\
    written (serve clock up body) = [] /\
    ended (serve clock up body) = true.
Proof.
  intros Hm Hs Hr He. rewrite serve_unfold. unfold try_catch.
  rewrite (attempt_run clock up body fresh (requested_model_not_null _ _ Hm)).
  rewrite Hm, Hs, Hr. cbv beta iota zeta.
  rewrite (recover_run err _ He). cbn [snd].
  unfold recovered, ErrorEnvelope.
  do 2 eexists. split; [reflexivity|]. split; [reflexivity|].
  split; [intros ->; reflexivity|]. repeat split.
Qed.

Lemma failed_dispatch_starts_no_stream_witness :
  exists status message,
    statusCode (serve sample_clock network_down (sample_request "gpt-4" true))
    = of_json status /\
    sent (serve sample_clock network_down (sample_request "gpt-4" true))
    = [ Some (JObj [ ("error", JObj [
          ("message", message);
          ("type", JStr "invalid_request_error");
          ("param", JNull);
          ("code", status) ]) ]) ] /\
    (chain (member (JObj [ ("message", JStr "Network Error") ]) "response")
       "status" = None ->
     status = JNum (int 500)) /\
    headers (serve sample_clock network_down (sample_request "gpt-4" true))
    = [] /\
    written (serve sample_clock network_down (sample_request "gpt-4" true))
    = [] /\
    ended (serve sample_clock network_down (sample_request "gpt-4" true))
    = true.
Proof.
  apply (failed_dispatch_starts_no_stream sample_clock network_down
           (sample_request "gpt-4" true) "gpt-4" sample_messages
           (JObj [ ("message", JStr "Network Error") ]));
    (reflexivity || discriminate).
Defined.

(** X10.  When the upstream answers a non-streaming request with the body
    [null], reading [choices] of it throws inside the [try]: the upstream
    has been called, and the client gets status 500 and an error envelope
    with the text of that [TypeError] and [code = 500]. *)
Theorem null_body_is_an_internal_error (clock : nat -> Z) (up : upstream)
  (body : json) (s : string) (ms : list json) :
  requested_model body = Some s ->
  requested_messages body = Some ms ->
  requested_stream body = false ->
  rejects up = None ->
  data up = JNull ->
  statusCode (serve clock up body) = VNum (int 500) /\
  sent (serve clock up body)
  = [ Some (JObj [ ("error", JObj [
        ("message",
         JStr "Cannot read properties of null (reading 'choices')");
        ("type", JStr "invalid_request_error");
        ("param", JNull);
        ("code", JNum (int 500)) ]) ]) ] /\
  List.length (posted (serve clock up body)) = 1%nat.
Proof.
  intros Hm Hs Hst Hr Hd. rewrite serve_unfold. unfold try_catch.
  rewrite (attempt_run clock up body fresh (requested_model_not_null _ _ Hm)).
  rewrite Hm, Hs, Hr, Hst, Hd. repeat split.
Qed.

Lemma null_body_is_an_internal_error_witness :
  statusCode (serve sample_clock null_body (sample_request "gpt-4" false))
  = VNum (int 500) /\
  sent (serve sample_clock null_body (sample_request "gpt-4" false))
  = [ Some (JObj [ ("error", JObj [
        ("message",
         JStr "Cannot read properties of null (reading 'choices')");
        ("type", JStr "invalid_request_error");
        ("param", JNull);
        ("code", JNum (int 500)) ]) ]) ] /\
  List.length (posted (serve sample_clock null_body
                         (sample_request "gpt-4" false))) = 1%nat.
Proof.
  exact (null_body_is_an_internal_error sample_clock null_body
           (sample_request "gpt-4" false) "gpt-4" sample_messages
           eq_refl eq_refl eq_refl eq_refl eq_refl).
Defined.

(** X11.  Any other upstream body without [choices] and [usage] is
    answered as a success: a body that is not JSON (which the HTTP client
    leaves a string), a number, a boolean, an array or an object that has
    neither gives status 200 and the envelope of defaults, with empty
    content. *)
Theorem unusable_body_is_an_empty_success (clock : nat -> Z) (up : upstream)
  (body : json) (s : string) (ms : list json) :
  requested_model body = Some s ->
  requested_messages body = Some ms ->
  requested_stream body = false ->
  rejects up = None ->
  data up <> JNull ->
  member (data up) "choices" = None ->
  member (data up) "usage" = None ->
  statusCode (serve clock up body) = VNum (int 200) /\
  sent (serve clock up body) = [Some (default_envelope s (clock 0) (clock 1))].
Proof.
  intros Hm Hs Hst Hr Hd Hc Hu. rewrite serve_unfold. unfold try_catch.
  rewrite (attempt_run clock up body fresh (requested_model_not_null _ _ Hm)).
  rewrite Hm, Hs, Hr, Hst. cbv zeta.
  assert (CompletionEnvelope (VStr s) (clock 0) (clock 1) (data up)
          = default_envelope s (clock 0) (clock 1)) as E
      by (unfold CompletionEnvelope; rewrite Hc, Hu; reflexivity).
  destruct (data up); try contradiction; cbn [snd]; rewrite <- E;
    repeat split.
Qed.

Lemma unusable_body_is_an_empty_success_witness :
  statusCode (serve sample_clock text_body (sample_request "gpt-4" false))
  = VNum (int 200) /\
  sent (serve sample_clock text_body (sample_request "gpt-4" false))
  = [Some (default_envelope "gpt-4" 1700000000000 1700000000001)].
Proof.
  apply (unusable_body_is_an_empty_success sample_clock text_body
           (sample_request "gpt-4" false) "gpt-4" sample_messages);
    (reflexivity || discriminate).
Defined.

(** *** The table *)

(** X12.  [GET /v1/models] answers 200 with one entry per key of the
    table, in the order of the table and without repeats; every id it
    lists is a non-empty name that the resolver maps to its own entry of
    the table. *)
Theorem listed_models_resolve :
  exists reply,
    sent (snd (list_models fresh)) = [Some reply] /\
    statusCode (snd (list_models fresh)) = VNum (int 200) /\
    listed_ids reply
    = map (fun k => Some (JStr k)) (Object_keys MODEL_MAPPING) /\
    NoDup (listed_ids reply) /\
    forall id, In (Some (JStr id)) (listed_ids reply) ->
      id <> "" /\
      exists backend,
        own MODEL_MAPPING id = Some (VStr backend) /\
        nimModel (VStr id) = VStr backend.
Proof.
  eexists. split; [reflexivity|]. split; [reflexivity|].
  split; [reflexivity|]. split.
  - cbn. repeat (constructor; [cbn; intuition discriminate|]). constructor.
  - intros id H. cbn in H.
    repeat (destruct H as [H|H];
            [injection H as <-; split; [discriminate|];
             eexists; split; reflexivity|]).
    destruct H.
Qed.

(** X13.  The resolver gives a key of the table its entry and gives every
    other name the default, unless [Object.prototype] has a property of
    that name; what it gives is never falsy (never [undefined], [null] or
    the empty string). *)
Theorem resolver_by_cases (k : string) :
  (forall backend,
      own MODEL_MAPPING k = Some (VStr backend) ->
      nimModel (VStr k) = VStr backend) /\
  (own MODEL_MAPPING k = None -> inherited k = VUndefined ->
   nimModel (VStr k) = VStr DEFAULT_NIM_MODEL) /\
  truthy (nimModel (VStr k)) = true.
Proof.
  split; [intros backend; apply nimModel_known|].
  split; [apply nimModel_unknown|].
  unfold nimModel, lookup, js_or. cbn [key_of MODEL_MAPPING own assoc].
  repeat (destruct (_ =? k); [reflexivity|]).
  unfold inherited. destruct (k =? "__proto__"); [reflexivity|].
  destruct (existsb (String.eqb k) Object_prototype_names); reflexivity.
Qed.

Lemma resolver_by_cases_witness :
  nimModel (VStr "gpt-4o") = VStr "meta/llama-3.1-405b-instruct" /\
  nimModel (VStr "gpt-5") = VStr DEFAULT_NIM_MODEL.
Proof.
  split.
  - exact (proj1 (resolver_by_cases "gpt-4o") _ eq_refl).
  - exact (proj1 (proj2 (resolver_by_cases "gpt-5")) eq_refl eq_refl).
Defined.

(** *** What is forwarded, and what is not *)

Lemma assoc_in_keys {A : Type} (k : string) (l : list (string * A)) :
  assoc k l <> None -> In k (map fst l).
Proof.
  induction l as [|[k' v] l IH]; cbn [assoc map fst In]; [congruence|].
  destruct (k' =? k) eqn:E.
  - apply String.eqb_eq in E. now left.
  - intros H. right. now apply IH.
Qed.

(** X14.  Nothing of the inbound request reaches the upstream but
    [model] (resolved), [messages], [temperature], [max_tokens] and
    [stream]: any other field of the request ([top_p], [stop], [tools],
    ...) is dropped. *)
Theorem only_five_fields_are_forwarded (clock : nat -> Z) (up : upstream)
  (body : json) (s : string) (ms : list json) :
  requested_model body = Some s ->
  requested_messages body = Some ms ->
  exists request,
    posted (serve clock up body) = [(Some request, requested_stream body)] /\
    forall k, member request k <> None ->
      In k ["model"; "messages"; "temperature"; "max_tokens"; "stream"].
Proof.
  intros Hm Hs. exists (UpstreamRequest body s ms).
  split; [now apply serve_posted_once|].
  intros k H. unfold UpstreamRequest in H. cbn [member] in H.
  apply assoc_in_keys in H. unfold model_field in H.
  destruct (stringify (nimModel (VStr s))); cbn in H |- *; intuition.
Qed.

Lemma only_five_fields_are_forwarded_witness :
  exists request,
    posted (serve sample_clock sample_answer extended_request)
    = [(Some request, false)] /\
    forall k, member request k <> None ->
      In k ["model"; "messages"; "temperature"; "max_tokens"; "stream"].
Proof.
  exact (only_five_fields_are_forwarded sample_clock sample_answer
           extended_request "gpt-4" sample_messages eq_refl eq_refl).
Defined.

(** X15.  A line that yields a record yields exactly this one, after two
    readings of the clock: [id] from the first, [created] from the second
    in seconds, the requested [model], and one choice whose [delta] holds
    the upstream role when it is not empty and the upstream content, [""]
    when that is missing or falsy, and whose [finish_reason] is the
    upstream's, [null] when that is missing or falsy.  Nothing else of the
    upstream event is passed on. *)
Theorem record_of_a_line (clock : nat -> Z) (s : string) (line : string)
  (w : world) :
  emits line = true ->
  exists upstream,
    JSON.parse (slice 6 line) = Some upstream /\
    let choice := chain (member upstream "choices") "0" in
    let delta := chain choice "delta" in
    written (snd (on_line clock (VStr s) line w))
    = written w ++
      [ Data (Some (JObj [
          ("id", JStr ("chatcmpl-" ++ Text.of_Z (clock (ticks w))));
          ("object", JStr "chat.completion.chunk");
          ("created", JNum (int (clock (S (ticks w)) / 1000)));
          ("model", JStr s);
          ("choices",
           JArr [ JObj [
             ("index", JNum (int 0));
             ("delta",
              JObj (role_field (chain delta "role") ++
                    [ ("content",
                       or_else (chain delta "content") (JStr "")) ]));
             ("finish_reason",
              or_else (chain choice "finish_reason") JNull) ] ]) ])) ] /\
    ticks (snd (on_line clock (VStr s) line w)) = S (S (ticks w)).
Proof.
  unfold emits. rewrite on_line_run. cbn [snd].
  destruct (startsWith line "data: "); [|discriminate].
  destruct (includes line "[DONE]"); [discriminate|].
  destruct (JSON.parse (slice 6 line)) as [j|]; [|discriminate].
  cbn [negb andb]. intros H. exists j. split; [reflexivity|].
  destruct j; try discriminate H; split; reflexivity.
Qed.

Lemma record_of_a_line_witness :
  exists chunk,
    written (snd (on_line sample_clock (VStr "gpt-4")
                    (dq "data: {'choices':[{'delta':{'tool_calls':[]}}]}")
                    fresh))
    = [Data (Some chunk)] /\
    chain (chain (member chunk "choices") "0") "delta"
    = Some (JObj [ ("content", JStr "") ]).
Proof.
  destruct (record_of_a_line sample_clock "gpt-4"
              (dq "data: {'choices':[{'delta':{'tool_calls':[]}}]}")
              fresh eq_refl) as (upstream & Hp & Hw & _).
  injection Hp as <-. eexists. split; [exact Hw|reflexivity].
Defined.
